(** * Smart Waste Route Planner: bin registry, capacity ledger and route plan

    A shallow embedding of the two portals of the application,
    [src/components/Client.tsx] (ClientPortal) and the driver portal
    (DriverPortal), together with the browser facilities they rely on
    ([localStorage], [parseFloat], [Number.prototype.toFixed], [Math.round]).

    Conventions of the embedding.
    - A React component is a record of its [useState] cells.  A handler is a
      function from the state captured by the render it was created in to
      the state after all its setter calls have been applied; values read in
      the handler are read from the captured state, as closures do.
    - JavaScript numbers are modelled by exact rationals ([Q]); the rounding
      of binary64 arithmetic is not modelled.  [NaN] and the infinities exist
      only where the code can meet them, in the result of [parseFloat].
    - [localStorage] holds, under the one key the code uses, either nothing,
      the JSON text of a list of bins, or a text [JSON.parse] rejects.
    - What the user and the outside world do is a sequence of events: form
      input, clicks, answers of the geocoder and of the directions service,
      timers, clock readings, and whether the browser accepts a write.  A
      click on a button rendered [disabled] is not delivered.
    - The map view itself (panning, zooming, fitting bounds, markers) and
      the markup are left out. *)

From Stdlib Require Import ZArith QArith Qround Qabs Lqa Lia Bool Ascii DecimalString.
From Stdlib Require String.
From stdpp Require Import base list strings.

(** ** JavaScript built-ins used by the portals *)

Module JS.

(** Result of [parseFloat]. *)
Inductive number : Type :=
| NaN
| NegInfinity
| Num (q : Q)
| Infinity.

Definition isNaN (x : number) : bool :=
  match x with NaN => true | _ => false end.

(** [x <= q] and [x > q] for a finite right operand; every comparison
    with [NaN] is false. *)
Definition le_Q (x : number) (q : Q) : bool :=
  match x with
  | NaN => false
  | NegInfinity => true
  | Num v => Qle_bool v q
  | Infinity => false
  end.

Definition gt_Q (x : number) (q : Q) : bool :=
  match x with
  | NaN => false
  | NegInfinity => false
  | Num v => negb (Qle_bool v q)
  | Infinity => true
  end.

(** The rational held by a finite number; [0] stands in for the three
    values that are not finite. *)
Definition finite_value (x : number) : Q :=
  match x with Num v => v | _ => 0 end.

Definition Math_max (a b : Q) : Q := if Qle_bool a b then b else a.

(** [Math.round]: nearest integer, ties towards +Infinity. *)
Definition Math_round (x : Q) : Z := Qfloor (x + (1 # 2))%Q.

(** *** Decimal rendering *)

Definition string_of_N (n : N) : string :=
  NilZero.string_of_uint (N.to_uint n).

(** [`${n}`] for an integer-valued number of magnitude below 10^21. *)
Definition string_of_Z (z : Z) : string :=
  match z with
  | Zneg p => "-" +:+ string_of_N (Npos p)
  | _ => string_of_N (Z.to_N z)
  end.

(** The [d] low decimal digits of [n], zero padded on the left. *)
Fixpoint low_digits (d : nat) (n : Z) : string :=
  match d with
  | O => ""
  | S d' => low_digits d' (n / 10) +:+ string_of_N (Z.to_N (n mod 10))
  end.

(** The integer [n] for which [n / 10^d - x] is closest to zero, the
    larger one on a tie ([x] non-negative). *)
Definition nearest_scaled (d : nat) (x : Q) : Z :=
  Qfloor (x * inject_Z (10 ^ Z.of_nat d) + (1 # 2))%Q.

(** [x.toFixed(d)] for [|x| < 10^21]. *)
Definition toFixed (d : nat) (x : Q) : string :=
  let neg := negb (Qle_bool 0 x) in
  let n := nearest_scaled d (Qabs x) in
  let p := (10 ^ Z.of_nat d)%Z in
  (if neg then "-" else "") +:+
  string_of_Z (n / p) +:+
  (match d with O => "" | _ => "." +:+ low_digits d (n mod p) end).

(** *** [parseFloat] *)

Definition is_digit (c : ascii) : bool :=
  let n := nat_of_ascii c in (48 <=? n)%nat && (n <=? 57)%nat.

Definition digit_value (c : ascii) : Z := Z.of_nat (nat_of_ascii c) - 48.

(** White space and line terminators of the ASCII range. *)
Definition is_space (c : ascii) : bool :=
  let n := nat_of_ascii c in
  ((9 <=? n)%nat && (n <=? 13)%nat) || (n =? 32)%nat.

Fixpoint trim_start (s : string) : string :=
  match s with
  | String c s' => if is_space c then trim_start s' else s
  | EmptyString => s
  end.

(** The longest run of decimal digits at the front of [s]: how many there
    are, their value continuing the accumulator [acc], and what follows. *)
Fixpoint digits (acc : Z) (s : string) : nat * Z * string :=
  match s with
  | String c s' =>
      if is_digit c
      then let '(k, v, r) := digits (acc * 10 + digit_value c) s' in (S k, v, r)
      else (O, acc, s)
  | EmptyString => (O, acc, s)
  end.

(** [ExponentPart]: [e] or [E], an optional sign, at least one digit.
    Anything else means there is no exponent. *)
Definition exponent (s : string) : Z :=
  match s with
  | String c s' =>
      if (Ascii.eqb c "e" || Ascii.eqb c "E")%bool then
        match s' with
        | String "-" s'' =>
            let '(k, v, _) := digits 0 s'' in
            match k with O => 0 | _ => - v end
        | String "+" s'' =>
            let '(k, v, _) := digits 0 s'' in
            match k with O => 0 | _ => v end
        | _ => let '(_, v, _) := digits 0 s' in v
        end
      else 0
  | EmptyString => 0
  end%Z.

(** [StrUnsignedDecimalLiteral] at the front of [s]. *)
Definition unsigned_literal (s : string) : option Q :=
  let '(ki, vi, r) := digits 0 s in
  let '(kf, v, r') :=
    match r with
    | String "." rest => digits vi rest
    | _ => (O, vi, r)
    end in
  match ki, kf with
  | O, O => None
  | _, _ => Some (inject_Z v * 10 ^ (exponent r' - Z.of_nat kf))%Q
  end.

Definition parseFloat_unsigned (s : string) : number :=
  if String.prefix "Infinity" s then Infinity
  else match unsigned_literal s with
       | Some q => Num q
       | None => NaN
       end.

Definition negate (x : number) : number :=
  match x with
  | NaN => NaN
  | NegInfinity => Infinity
  | Num q => Num (- q)%Q
  | Infinity => NegInfinity
  end.

Definition parseFloat (s : string) : number :=
  match trim_start s with
  | String "-" s' => negate (parseFloat_unsigned s')
  | String "+" s' => parseFloat_unsigned s'
  | s' => parseFloat_unsigned s'
  end.

End JS.

(** ** Data shared by the two portals *)

Inductive NotificationType : Type := success | error | info.

Record NotificationState : Type := {
  message : string;
  type : NotificationType;
}.

(** A [{ lat, lng }] literal. *)
Module LatLngLiteral.
Record t : Type := { lat : Q; lng : Q }.
End LatLngLiteral.

(** [BinData] of the client portal.  The driver portal declares the same
    shape without [createdAt] ([StoredBinData]); it reads the very objects
    the client stored, so one record serves both. *)
Module BinData.
Record t : Type := {
  id : string;
  location : string;
  amount : Q;
  lat : Q;
  lng : Q;
  createdAt : string;
}.
End BinData.

(** ** [localStorage], restricted to the key ["fullBins"] *)

Module LocalStorage.

(** A stored text: the JSON text of a list of bins, which [JSON.parse]
    turns back into that list, or a text that [JSON.parse] rejects with a
    [SyntaxError] (the empty text is among them). *)
Inductive text : Type :=
| Json (bins : list BinData.t)
| Malformed (raw : string).

(** [None] is the absent key ([getItem] returns [null]).  As the Web
    Storage interface has it, [getItem] and [removeItem] never throw and
    [setItem] may. *)
Definition t : Type := option text.

Definition getItem (st : t) : option text := st.

(** [setItem] either stores the text or throws ([QuotaExceededError]);
    which one is up to the browser and is given by [accepts]. *)
Definition setItem (accepts : bool) (v : text) (st : t) : option t :=
  if accepts then Some (Some v) else None.

Definition removeItem (st : t) : t := None.

(** Truthiness of a stored text: only the empty string is falsy. *)
Definition truthy (v : text) : bool :=
  match v with
  | Json _ => true
  | Malformed "" => false
  | Malformed _ => true
  end.

(** [JSON.parse]; [None] when it throws. *)
Definition JSON_parse (v : text) : option (list BinData.t) :=
  match v with
  | Json bins => Some bins
  | Malformed _ => None
  end.

Definition JSON_stringify (bins : list BinData.t) : text := Json bins.

End LocalStorage.

(** ** The client portal ([ClientPortal]) *)

Module Client.

Definition MAX_TRUCK_CAPACITY : Q := 100.
Definition COLOMBO_COORDS : LatLngLiteral.t :=
  {| LatLngLiteral.lat := 69271 # 10000; LatLngLiteral.lng := 798612 # 10000 |}.

(** The [useState] cells.  [mapInstance] records whether the map object
    has been handed over yet. *)
Record State : Type := {
  amount : string;
  bins : list BinData.t;
  latLng : option LatLngLiteral.t;
  location : string;
  isGeocoding : bool;
  mapInstance : bool;
  initialCenter : LatLngLiteral.t;
  notification : option NotificationState;
  isSubmitting : bool;
}.

Definition setAmount (v : string) (s : State) : State :=
  {| amount := v; bins := bins s; latLng := latLng s; location := location s;
     isGeocoding := isGeocoding s; mapInstance := mapInstance s;
     initialCenter := initialCenter s; notification := notification s;
     isSubmitting := isSubmitting s |}.
Definition setBins (v : list BinData.t) (s : State) : State :=
  {| amount := amount s; bins := v; latLng := latLng s; location := location s;
     isGeocoding := isGeocoding s; mapInstance := mapInstance s;
     initialCenter := initialCenter s; notification := notification s;
     isSubmitting := isSubmitting s |}.
Definition setLatLng (v : option LatLngLiteral.t) (s : State) : State :=
  {| amount := amount s; bins := bins s; latLng := v; location := location s;
     isGeocoding := isGeocoding s; mapInstance := mapInstance s;
     initialCenter := initialCenter s; notification := notification s;
     isSubmitting := isSubmitting s |}.
Definition setLocation (v : string) (s : State) : State :=
  {| amount := amount s; bins := bins s; latLng := latLng s; location := v;
     isGeocoding := isGeocoding s; mapInstance := mapInstance s;
     initialCenter := initialCenter s; notification := notification s;
     isSubmitting := isSubmitting s |}.
Definition setIsGeocoding (v : bool) (s : State) : State :=
  {| amount := amount s; bins := bins s; latLng := latLng s; location := location s;
     isGeocoding := v; mapInstance := mapInstance s;
     initialCenter := initialCenter s; notification := notification s;
     isSubmitting := isSubmitting s |}.
Definition setMapInstance (v : bool) (s : State) : State :=
  {| amount := amount s; bins := bins s; latLng := latLng s; location := location s;
     isGeocoding := isGeocoding s; mapInstance := v;
     initialCenter := initialCenter s; notification := notification s;
     isSubmitting := isSubmitting s |}.
Definition setInitialCenter (v : LatLngLiteral.t) (s : State) : State :=
  {| amount := amount s; bins := bins s; latLng := latLng s; location := location s;
     isGeocoding := isGeocoding s; mapInstance := mapInstance s;
     initialCenter := v; notification := notification s;
     isSubmitting := isSubmitting s |}.
Definition setNotification (v : option NotificationState) (s : State) : State :=
  {| amount := amount s; bins := bins s; latLng := latLng s; location := location s;
     isGeocoding := isGeocoding s; mapInstance := mapInstance s;
     initialCenter := initialCenter s; notification := v;
     isSubmitting := isSubmitting s |}.
Definition setIsSubmitting (v : bool) (s : State) : State :=
  {| amount := amount s; bins := bins s; latLng := latLng s; location := location s;
     isGeocoding := isGeocoding s; mapInstance := mapInstance s;
     initialCenter := initialCenter s; notification := notification s;
     isSubmitting := v |}.

(** The state of the first render. *)
Definition initial : State :=
  {| amount := ""; bins := []; latLng := None; location := "";
     isGeocoding := false; mapInstance := false;
     initialCenter := COLOMBO_COORDS; notification := None;
     isSubmitting := false |}.

(** *** Derived values of a render *)

(** [bins.reduce((sum, bin) => sum + bin.amount, 0)] *)
Definition totalAmountOf (l : list BinData.t) : Q :=
  fold_left (fun sum bin => (sum + BinData.amount bin)%Q) l 0%Q.

Definition totalAmount (s : State) : Q := totalAmountOf (bins s).

Definition remainingCapacity (s : State) : Q :=
  JS.Math_max 0 (MAX_TRUCK_CAPACITY - totalAmount s)%Q.



(** [disabled] of the submit button. *)
Definition submitDisabled (s : State) : bool :=
  Qle_bool (remainingCapacity s) 0 || isSubmitting s
  || match latLng s with Some _ => false | None => true end.

(** [disabled] of the amount input. *)
Definition amountDisabled (s : State) : bool :=
  Qle_bool (remainingCapacity s) 0 || isSubmitting s.

(** [disabled] of the clear button. *)
Definition clearDisabled (s : State) : bool := isSubmitting s.

(** *** Effects run on mount *)

(** Callbacks of [navigator.geolocation.getCurrentPosition]. *)
Definition onPosition (coords : LatLngLiteral.t) (s : State) : State :=
  setInitialCenter coords s.

Definition onPositionError (s : State) : State :=
  setNotification
    (Some {| type := info;
             message := "Could not get current location. Defaulting map to Colombo." |})
    s.

(** Loading the bins from [localStorage]. *)
Definition loadBins (st : LocalStorage.t) (s : State) : State :=
  match LocalStorage.getItem st with
  | Some storedBins =>
      if LocalStorage.truthy storedBins then
        match LocalStorage.JSON_parse storedBins with
        | Some parsed => setBins parsed s
        | None =>
            setNotification
              (Some {| type := error;
                       message := "Could not load previously submitted bins." |})
              s
        end
      else s
  | None => s
  end.

(** The timer that clears a notification. *)
Definition onNotificationTimeout (s : State) : State :=
  setNotification None s.

Definition mount (st : LocalStorage.t) : State := loadBins st initial.

(** *** Handlers *)

Definition handleMapLoad (s : State) : State := setMapInstance true s.

(** [handleMapClick] up to its [await]: [e.latLng] may be missing, and the
    geocoder may not be there yet.  The second component tells whether a
    geocoding request was started. *)
Definition handleMapClick (e_latLng : option LatLngLiteral.t)
    (geocoderReady : bool) (s : State) : State * bool :=
  match e_latLng with
  | Some pos =>
      let s := setLatLng (Some pos) s in
      let s := setLocation "" s in
      if geocoderReady then
        let s := setIsGeocoding true s in
        (setLocation "Fetching address..." s, true)
      else
        (setLocation
           ("Lat: " +:+ JS.toFixed 4 (LatLngLiteral.lat pos) +:+ ", Lng: "
            +:+ JS.toFixed 4 (LatLngLiteral.lng pos) +:+ " (Geocoder not ready)") s,
         false)
  | None => (s, false)
  end.

(** The rest of [handleMapClick], once the geocoder has answered with the
    formatted addresses of its results, or has failed ([None]). *)
Definition handleMapClick_resume (answer : option (list string)) (s : State) : State :=
  let s :=
    match answer with
    | Some (formatted_address :: _) => setLocation formatted_address s
    | Some [] => setLocation "Address not found" s
    | None => s
    end in
  setIsGeocoding false s.

(** The [newBin] literal of [handleSubmit], for the pinned location [pin]
    and the parsed amount. *)
Definition newBin (now_id now_createdAt : string) (pin : LatLngLiteral.t)
    (amountNumber : JS.number) (captured : State) : BinData.t :=
  {| BinData.id := now_id;
     BinData.location :=
       if String.eqb (location captured) ""
       then "Pinned: " +:+ JS.toFixed 4 (LatLngLiteral.lat pin) +:+ ", "
            +:+ JS.toFixed 4 (LatLngLiteral.lng pin)
       else location captured;
     BinData.amount := JS.finite_value amountNumber;
     BinData.lat := LatLngLiteral.lat pin;
     BinData.lng := LatLngLiteral.lng pin;
     BinData.createdAt := now_createdAt |}.

(** [handleSubmit].  [now_id] and [now_createdAt] are what the two
    [new Date().toISOString()] calls return; [accepts] tells whether the
    browser accepts the write to [localStorage]. *)
Definition handleSubmit (now_id now_createdAt : string) (accepts : bool)
    (st : LocalStorage.t) (s : State) : State * LocalStorage.t :=
  let captured := s in
  let s := setIsSubmitting true s in
  let s := setNotification None s in
  let amountNumber := JS.parseFloat (amount captured) in
  match String.eqb (amount captured) "", latLng captured with
  | false, Some pin =>
      if JS.isNaN amountNumber || JS.le_Q amountNumber 0 then
        let s := setNotification
                   (Some {| type := error;
                            message := "Please enter a valid positive waste amount." |}) s in
        (setIsSubmitting false s, st)
      else if JS.gt_Q amountNumber (remainingCapacity captured) then
        let s := setNotification
                   (Some {| type := error;
                            message := "Amount exceeds remaining truck capacity of "
                                       +:+ JS.toFixed 2 (remainingCapacity captured)
                                       +:+ " kg." |}) s in
        (setIsSubmitting false s, st)
      else
        let newBin := newBin now_id now_createdAt pin amountNumber captured in
        let updatedBins := bins captured ++ [newBin] in
        let s := setBins updatedBins s in
        let '(s, st) :=
          match LocalStorage.setItem accepts (LocalStorage.JSON_stringify updatedBins) st with
          | Some st' =>
              (setNotification
                 (Some {| type := success;
                          message := "Bin details submitted successfully!" |}) s, st')
          | None =>
              (setNotification
                 (Some {| type := error;
                          message := "Failed to save bin. Data might be lost on refresh." |}) s,
               st)
          end in
        let s := setLocation "" s in
        let s := setAmount "" s in
        let s := setLatLng None s in
        (setIsSubmitting false s, st)
  | _, _ =>
      let s := setNotification
                 (Some {| type := error;
                          message := "Please pin a location and enter the waste amount." |}) s in
      (setIsSubmitting false s, st)
  end.

Definition handleClear (st : LocalStorage.t) (s : State) : State * LocalStorage.t :=
  let st := LocalStorage.removeItem st in
  let s := setBins [] s in
  let s := setNotification
             (Some {| type := info;
                      message := "All submitted bin data has been cleared." |}) s in
  let s := setAmount "" s in
  let s := setLatLng None s in
  (setLocation "" s, st).

(** *** Events of a mounted client portal *)

Inductive event : Type :=
| Position (coords : LatLngLiteral.t)
| PositionError
| NotificationTimeout
| MapLoad
| ChangeAmount (value : string)
| MapClick (e_latLng : option LatLngLiteral.t) (geocoderReady : bool)
| GeocoderAnswer (answer : option (list string))
| Submit (now_id now_createdAt : string) (accepts : bool)
| Clear.

(** A submit or a click on a disabled button is not delivered, and a
    disabled input cannot be edited. *)
Definition step (e : event) (st : LocalStorage.t) (s : State) : State * LocalStorage.t :=
  match e with
  | Position coords => (onPosition coords s, st)
  | PositionError => (onPositionError s, st)
  | NotificationTimeout => (onNotificationTimeout s, st)
  | MapLoad => (handleMapLoad s, st)
  | ChangeAmount value => if amountDisabled s then (s, st) else (setAmount value s, st)
  | MapClick e_latLng geocoderReady => (fst (handleMapClick e_latLng geocoderReady s), st)
  | GeocoderAnswer answer => (handleMapClick_resume answer s, st)
  | Submit now_id now_createdAt accepts =>
      if submitDisabled s then (s, st)
      else handleSubmit now_id now_createdAt accepts st s
  | Clear => if clearDisabled s then (s, st) else handleClear st s
  end.

Fixpoint run (es : list event) (st : LocalStorage.t) (s : State) : State * LocalStorage.t :=
  match es with
  | [] => (s, st)
  | e :: es' => let '(s', st') := step e st s in run es' st' s'
  end.

End Client.

(** ** The driver portal ([DriverPortal]) *)

Module Driver.

Definition DEFAULT_CENTER : LatLngLiteral.t :=
  {| LatLngLiteral.lat := 6902146919051226 # 1000000000000000;
     LatLngLiteral.lng := 7986086322142651 # 100000000000000 |}.

(** *** The part of the Google Maps API the portal touches *)

(** [new google.maps.LatLng(lat, lng)], kept as the constructor call. *)
Inductive LatLng : Type := LatLng_new (lat lng : Q).

Record DirectionsWaypoint : Type := {
  location : LatLng;
  stopover : bool;
}.

Inductive TravelMode : Type := BICYCLING | DRIVING | TRANSIT | WALKING.

(** [destination] is [undefined] ([None]) when it is read past the end of
    an empty array. *)
Record DirectionsRequest : Type := {
  origin : LatLngLiteral.t;
  destination : option LatLngLiteral.t;
  waypoints : list DirectionsWaypoint;
  optimizeWaypoints : bool;
  travelMode : TravelMode;
}.

Inductive DirectionsStatus : Type :=
| OK | NOT_FOUND | ZERO_RESULTS | MAX_WAYPOINTS_EXCEEDED | INVALID_REQUEST
| OVER_QUERY_LIMIT | REQUEST_DENIED | UNKNOWN_ERROR.

Definition status_text (status : DirectionsStatus) : string :=
  match status with
  | OK => "OK"
  | NOT_FOUND => "NOT_FOUND"
  | ZERO_RESULTS => "ZERO_RESULTS"
  | MAX_WAYPOINTS_EXCEEDED => "MAX_WAYPOINTS_EXCEEDED"
  | INVALID_REQUEST => "INVALID_REQUEST"
  | OVER_QUERY_LIMIT => "OVER_QUERY_LIMIT"
  | REQUEST_DENIED => "REQUEST_DENIED"
  | UNKNOWN_ERROR => "UNKNOWN_ERROR"
  end.

(** [google.maps.Distance] and [google.maps.Duration]: metres or seconds
    in [value]. *)
Record Measure : Type := { text : string; value : Q }.

Record DirectionsLeg : Type := {
  distance : option Measure;
  duration : option Measure;
}.

Record DirectionsRoute : Type := { legs : list DirectionsLeg }.

Record DirectionsResult : Type := { routes : list DirectionsRoute }.

Record RouteSummary : Type := {
  summary_distance : string;
  summary_duration : string;
}.

(** *** State *)

(** [map] records whether the map object has been handed over;
    [driverLocation] has no setter in the source. *)
Record State : Type := {
  bins : list BinData.t;
  map : bool;
  directionsResponse : option DirectionsResult;
  routePlanned : bool;
  isLoadingRoute : bool;
  driverLocation : LatLngLiteral.t;
  routeSummary : option RouteSummary;
  notification : option NotificationState;
}.

Definition setBins (v : list BinData.t) (d : State) : State :=
  {| bins := v; map := map d; directionsResponse := directionsResponse d;
     routePlanned := routePlanned d; isLoadingRoute := isLoadingRoute d;
     driverLocation := driverLocation d; routeSummary := routeSummary d;
     notification := notification d |}.
Definition setMap (v : bool) (d : State) : State :=
  {| bins := bins d; map := v; directionsResponse := directionsResponse d;
     routePlanned := routePlanned d; isLoadingRoute := isLoadingRoute d;
     driverLocation := driverLocation d; routeSummary := routeSummary d;
     notification := notification d |}.
Definition setDirectionsResponse (v : option DirectionsResult) (d : State) : State :=
  {| bins := bins d; map := map d; directionsResponse := v;
     routePlanned := routePlanned d; isLoadingRoute := isLoadingRoute d;
     driverLocation := driverLocation d; routeSummary := routeSummary d;
     notification := notification d |}.
Definition setRoutePlanned (v : bool) (d : State) : State :=
  {| bins := bins d; map := map d; directionsResponse := directionsResponse d;
     routePlanned := v; isLoadingRoute := isLoadingRoute d;
     driverLocation := driverLocation d; routeSummary := routeSummary d;
     notification := notification d |}.
Definition setIsLoadingRoute (v : bool) (d : State) : State :=
  {| bins := bins d; map := map d; directionsResponse := directionsResponse d;
     routePlanned := routePlanned d; isLoadingRoute := v;
     driverLocation := driverLocation d; routeSummary := routeSummary d;
     notification := notification d |}.
Definition setRouteSummary (v : option RouteSummary) (d : State) : State :=
  {| bins := bins d; map := map d; directionsResponse := directionsResponse d;
     routePlanned := routePlanned d; isLoadingRoute := isLoadingRoute d;
     driverLocation := driverLocation d; routeSummary := v;
     notification := notification d |}.
Definition setNotification (v : option NotificationState) (d : State) : State :=
  {| bins := bins d; map := map d; directionsResponse := directionsResponse d;
     routePlanned := routePlanned d; isLoadingRoute := isLoadingRoute d;
     driverLocation := driverLocation d; routeSummary := routeSummary d;
     notification := v |}.

Definition initial : State :=
  {| bins := []; map := false; directionsResponse := None;
     routePlanned := false; isLoadingRoute := false;
     driverLocation := DEFAULT_CENTER; routeSummary := None;
     notification := None |}.

(** *** Effects run on mount *)

Definition noBinsYet : NotificationState :=
  {| type := info; message := "No bins reported yet. Waiting for submissions." |}.

Definition loadBins (st : LocalStorage.t) (d : State) : State :=
  match LocalStorage.getItem st with
  | Some storedBins =>
      if LocalStorage.truthy storedBins then
        match LocalStorage.JSON_parse storedBins with
        | Some parsedBins =>
            let d := setBins parsedBins d in
            if (length parsedBins =? 0)%nat
            then setNotification (Some noBinsYet) d
            else d
        | None =>
            setNotification
              (Some {| type := error; message := "Could not load bin data." |}) d
        end
      else setNotification (Some noBinsYet) d
  | None => setNotification (Some noBinsYet) d
  end.

Definition onNotificationTimeout (d : State) : State := setNotification None d.

Definition mount (st : LocalStorage.t) : State := loadBins st initial.

(** *** Handlers *)

Definition onMapLoad (d : State) : State := setMap true d.

(** The request [planRoute] hands to [DirectionsService.route]. *)
Definition routeRequest (d : State) : DirectionsRequest :=
  let binLocations :=
    List.map (fun b => {| LatLngLiteral.lat := BinData.lat b;
                          LatLngLiteral.lng := BinData.lng b |}) (bins d) in
  {| origin := driverLocation d;
     destination := last binLocations;
     waypoints :=
       List.map (fun loc => {| location := LatLng_new (LatLngLiteral.lat loc)
                                                       (LatLngLiteral.lng loc);
                               stopover := true |})
                (removelast binLocations);
     optimizeWaypoints := true;
     travelMode := DRIVING |}.

(** [planRoute]; the second component is the request sent, if any. *)
Definition planRoute (d : State) : State * option DirectionsRequest :=
  if negb (map d) then
    (setNotification (Some {| type := error; message := "Map not ready." |}) d, None)
  else if (length (bins d) =? 0)%nat then
    (setNotification (Some {| type := info; message := "No bins to plan route." |}) d,
     None)
  else
    let captured := d in
    let d := setIsLoadingRoute true d in
    let d := setDirectionsResponse None d in
    let d := setRouteSummary None d in
    let d := setNotification None d in
    (d, Some (routeRequest captured)).

(** [x?.value || 0] *)
Definition value_or_0 (m : option Measure) : Q :=
  match m with Some x => value x | None => 0%Q end.

(** The two accumulators of the [forEach] over the legs. *)
Definition totals (l : list DirectionsLeg) : Q * Q :=
  fold_left
    (fun '(totalDistance, totalDuration) leg =>
       ((totalDistance + value_or_0 (distance leg))%Q,
        (totalDuration + value_or_0 (duration leg))%Q))
    l (0%Q, 0%Q).

Definition summarize (l : list DirectionsLeg) : RouteSummary :=
  let '(totalDistance, totalDuration) := totals l in
  {| summary_distance := JS.toFixed 2 (totalDistance / 1000)%Q +:+ " km";
     summary_duration := JS.string_of_Z (JS.Math_round (totalDuration / 60)%Q) +:+ " min" |}.

(** How a callback ends: normally, or with an exception nobody catches. *)
Inductive completion : Type := Returned | Threw (name : string).

(** The callback given to [DirectionsService.route].  State updates made
    before an exception stay made. *)
Definition onRoute (result : option DirectionsResult) (status : DirectionsStatus)
    (d : State) : State * completion :=
  let d := setIsLoadingRoute false d in
  match status, result with
  | OK, Some result =>
      let d := setDirectionsResponse (Some result) d in
      let d := setRoutePlanned true d in
      match routes result with
      | route0 :: _ =>
          let d := setRouteSummary (Some (summarize (legs route0))) d in
          (setNotification
             (Some {| type := success; message := "Route planned successfully!" |}) d,
           Returned)
      | [] => (d, Threw "TypeError")
      end
  | _, _ =>
      (setNotification
         (Some {| type := error;
                  message := "Route planning failed: " +:+ status_text status |}) d,
       Returned)
  end.

Definition clearRoute (d : State) : State :=
  let d := setDirectionsResponse None d in
  let d := setRoutePlanned false d in
  let d := setRouteSummary None d in
  setNotification (Some {| type := info; message := "Route cleared." |}) d.

(** [disabled] of the Plan Route button. *)
Definition planDisabled (d : State) : bool :=
  isLoadingRoute d || routePlanned d || (length (bins d) =? 0)%nat.

(** *** A mounted driver portal with its outstanding route requests *)

Record Session : Type := {
  view : State;
  inFlight : list DirectionsRequest;
}.

Inductive event : Type :=
| NotificationTimeout
| MapLoad
| ClickPlanRoute
| ClickClearRoute
| RouteAnswer (result : option DirectionsResult) (status : DirectionsStatus).

Definition option_to_list {A} (o : option A) : list A :=
  match o with Some a => [a] | None => [] end.

(** A click on the disabled Plan Route button is not delivered; the Clear
    Route button exists only while [routePlanned]; the service answers
    only requests it was sent. *)
Definition step (e : event) (x : Session) : Session :=
  match e with
  | NotificationTimeout =>
      {| view := onNotificationTimeout (view x); inFlight := inFlight x |}
  | MapLoad => {| view := onMapLoad (view x); inFlight := inFlight x |}
  | ClickPlanRoute =>
      if planDisabled (view x) then x
      else let '(d, request) := planRoute (view x) in
           {| view := d; inFlight := inFlight x ++ option_to_list request |}
  | ClickClearRoute =>
      if routePlanned (view x)
      then {| view := clearRoute (view x); inFlight := inFlight x |}
      else x
  | RouteAnswer result status =>
      match inFlight x with
      | _ :: rest => {| view := fst (onRoute result status (view x)); inFlight := rest |}
      | [] => x
      end
  end.

Definition run (es : list event) (x : Session) : Session :=
  fold_left (fun x e => step e x) es x.

Definition start (st : LocalStorage.t) : Session :=
  {| view := mount st; inFlight := [] |}.

End Driver.

(** ** The application: one shared [localStorage], any number of tabs *)

Module App.

(** What the router shows in a tab. *)
Inductive Page : Type :=
| HomePage
| ClientPortal (s : Client.State)
| DriverPortal (x : Driver.Session).

Inductive path : Type := home | client | driver.

Record World : Type := {
  localStorage : LocalStorage.t;
  tabs : list Page;
}.

(** Rendering the route of [p] mounts its component afresh. *)
Definition render (p : path) (st : LocalStorage.t) : Page :=
  match p with
  | home => HomePage
  | client => ClientPortal (Client.mount st)
  | driver => DriverPortal (Driver.start st)
  end.

Inductive event : Type :=
| Open (p : path)
| Navigate (tab : nat) (p : path)
| OnClient (tab : nat) (e : Client.event)
| OnDriver (tab : nat) (e : Driver.event).

(** An event addressed to a tab that does not show the matching portal is
    not delivered. *)
Definition step (e : event) (w : World) : World :=
  match e with
  | Open p =>
      {| localStorage := localStorage w;
         tabs := tabs w ++ [render p (localStorage w)] |}
  | Navigate tab p =>
      {| localStorage := localStorage w;
         tabs := <[tab := render p (localStorage w)]> (tabs w) |}
  | OnClient tab e =>
      match tabs w !! tab with
      | Some (ClientPortal s) =>
          let '(s', st') := Client.step e (localStorage w) s in
          {| localStorage := st'; tabs := <[tab := ClientPortal s']> (tabs w) |}
      | _ => w
      end
  | OnDriver tab e =>
      match tabs w !! tab with
      | Some (DriverPortal x) =>
          {| localStorage := localStorage w;
             tabs := <[tab := DriverPortal (Driver.step e x)]> (tabs w) |}
      | _ => w
      end
  end.

Definition run (es : list event) (w : World) : World :=
  fold_left (fun w e => step e w) es w.

End App.




(** What holds of a driver portal from its mount on: the depot never moves;
    a route is loading exactly while one request is outstanding, and only
    for a non-empty bin list; without bins there is no plan. *)
Definition session_consistent (x : Driver.Session) : Prop :=
  Driver.driverLocation (Driver.view x) = Driver.DEFAULT_CENTER /\
  (if Driver.isLoadingRoute (Driver.view x)
   then length (Driver.inFlight x) = 1%nat /\ Driver.bins (Driver.view x) <> []
   else Driver.inFlight x = []) /\
  (Driver.bins (Driver.view x) = [] ->
   Driver.routePlanned (Driver.view x) = false /\
   Driver.routeSummary (Driver.view x) = None).


(** ** Vocabulary of the further properties *)

(** The write of a submission is accepted by the browser (other events do
    not write). *)
Definition write_accepted (e : Client.event) : bool :=
  match e with Client.Submit _ _ accepts => accepts | _ => true end.

Definition is_clear (e : Client.event) : bool :=
  match e with Client.Clear => true | _ => false end.

(** The geocoder does not answer with an empty address. *)
Definition answer_named (e : Client.event) : Prop :=
  match e with
  | Client.GeocoderAnswer (Some (formatted_address :: _)) => formatted_address <> ""
  | _ => True
  end.

(** A pinned location comes with a text in the location field. *)
Definition location_shown (s : Client.State) : Prop :=
  Client.latLng s = None \/ Client.location s <> "".


Definition ids (l : list BinData.t) : list string := List.map BinData.id l.

(** The clock readings the submissions of a run take their ids from. *)
Definition clock_readings (es : list Client.event) : list string :=
  flat_map (fun e => match e with Client.Submit now_id _ _ => [now_id] | _ => [] end) es.

(** The waypoint [planRoute] makes of a bin. *)
Definition waypoint_of (b : BinData.t) : Driver.DirectionsWaypoint :=
  {| Driver.location := Driver.LatLng_new (BinData.lat b) (BinData.lng b);
     Driver.stopover := true |}.

(** How the flags of a driver portal go together: a route is not loading
    and planned at once; an unplanned portal holds neither a directions
    result nor a summary; a planned one holds a directions result, for a
    non-empty bin list. *)
Definition plan_consistent (x : Driver.Session) : Prop :=
  (Driver.isLoadingRoute (Driver.view x) = true ->
   Driver.routePlanned (Driver.view x) = false) /\
  (Driver.routePlanned (Driver.view x) = false ->
   Driver.directionsResponse (Driver.view x) = None /\
   Driver.routeSummary (Driver.view x) = None) /\
  (Driver.routePlanned (Driver.view x) = true ->
   Driver.directionsResponse (Driver.view x) <> None /\
   Driver.bins (Driver.view x) <> []).

(** ** Concrete runs used below *)

Module Scenario.

Definition pin : LatLngLiteral.t :=
  {| LatLngLiteral.lat := 69 # 10; LatLngLiteral.lng := 799 # 10 |}.

(** Pin a location, type an amount, submit at the clock reading [now]. *)
Definition submission (amount now : string) (accepts : bool) : list Client.event :=
  [ Client.MapClick (Some pin) false; Client.ChangeAmount amount;
    Client.Submit now now accepts ].

(** Bins of 40, 40 and 15 kg are submitted; then 10 kg is entered. *)
Definition three_bins_then_ten : list Client.event :=
  submission "40" "2025-05-20T08:00:00.000Z" true
  ++ submission "40" "2025-05-20T08:01:00.000Z" true
  ++ submission "15" "2025-05-20T08:02:00.000Z" true
  ++ [ Client.MapClick (Some pin) false; Client.ChangeAmount "10" ].

(** Two submissions for which the clock reads the same millisecond. *)
Definition same_instant : list Client.event :=
  submission "10" "2025-05-20T08:00:00.000Z" true
  ++ submission "20" "2025-05-20T08:00:00.000Z" true.

Definition bin (name : string) (amount lat lng : Q) : BinData.t :=
  {| BinData.id := name; BinData.location := name; BinData.amount := amount;
     BinData.lat := lat; BinData.lng := lng; BinData.createdAt := name |}.

Definition A : BinData.t := bin "A" 10 1 1.
Definition B : BinData.t := bin "B" 20 2 2.
Definition C : BinData.t := bin "C" 30 3 3.

Definition stored_ABC : LocalStorage.t := Some (LocalStorage.Json [A; B; C]).

Definition leg (metres seconds : Q) : Driver.DirectionsLeg :=
  {| Driver.distance := Some {| Driver.text := ""; Driver.value := metres |};
     Driver.duration := Some {| Driver.text := ""; Driver.value := seconds |} |}.

(** Legs of 5 km / 10 min, 3 km / 6 min and 4 km / 8 min. *)
Definition three_legs : list Driver.DirectionsLeg :=
  [leg 5000 600; leg 3000 360; leg 4000 480].

Definition answer (l : list Driver.DirectionsLeg) : Driver.DirectionsResult :=
  {| Driver.routes := [ {| Driver.legs := l |} ] |}.

(** The driver portal with A, B, C loaded, its map ready. *)
Definition ready : Driver.Session :=
  Driver.run [Driver.MapLoad] (Driver.start stored_ABC).

(** ... after Plan Route was clicked. *)
Definition planning : Driver.Session := Driver.step Driver.ClickPlanRoute ready.

(** ... after the service answered with the three legs. *)
Definition planned : Driver.Session :=
  Driver.step (Driver.RouteAnswer (Some (answer three_legs)) Driver.OK) planning.

(** Two tabs over the store holding A, B, C: a client portal in tab 0 and
    a driver portal in tab 1 whose route has been planned. *)
Definition two_tabs : App.World :=
  App.run
    [ App.Open App.client; App.Open App.driver;
      App.OnDriver 1 Driver.MapLoad; App.OnDriver 1 Driver.ClickPlanRoute;
      App.OnDriver 1 (Driver.RouteAnswer (Some (answer three_legs)) Driver.OK) ]
    {| App.localStorage := stored_ABC; App.tabs := [] |}.

(** ... in which the client has pinned a location and typed 5 kg. *)
Definition two_tabs_filled : App.World :=
  App.run
    [ App.OnClient 0 (Client.MapClick (Some pin) false);
      App.OnClient 0 (Client.ChangeAmount "5") ]
    two_tabs.

End Scenario.

(** ** Further concrete runs *)

Module Walkthrough.

(** A client portal over the store holding A, B, C, with a location pinned
    and 12.5 kg typed. *)
Definition filled : Client.State :=
  (Client.run [Client.MapClick (Some Scenario.pin) true;
               Client.GeocoderAnswer (Some ["12 Galle Road, Colombo"]);
               Client.ChangeAmount "12.5"]
     Scenario.stored_ABC (Client.mount Scenario.stored_ABC)).1.


(** A client portal over the store holding A, B, C, with a location pinned
    and the given amount typed. *)
Definition typed (amount : string) : Client.State :=
  (Client.run [Client.MapClick (Some Scenario.pin) false; Client.ChangeAmount amount]
     Scenario.stored_ABC (Client.mount Scenario.stored_ABC)).1.

(** Two client portals mounted over the store holding A, B, C, each with a
    location pinned and an amount typed. *)
Definition two_clients : App.World :=
  App.run
    [ App.Open App.client; App.Open App.client;
      App.OnClient 0 (Client.MapClick (Some Scenario.pin) false);
      App.OnClient 0 (Client.ChangeAmount "5");
      App.OnClient 1 (Client.MapClick (Some Scenario.pin) false);
      App.OnClient 1 (Client.ChangeAmount "7") ]
    {| App.localStorage := Scenario.stored_ABC; App.tabs := [] |}.

End Walkthrough.

(** * Properties *)

(** ** Numbers *)


Lemma gt_Q_finite (x : JS.number) (q : Q) :
  JS.isNaN x = false -> JS.le_Q x 0 = false -> JS.gt_Q x q = false ->
  exists v, x = JS.Num v /\ (0 < v)%Q /\ (v <= q)%Q.
Proof.
  destruct x as [| |v|]; simpl; try discriminate.
  intros _ Hpos Hle. exists v. split; [reflexivity|]. split.
  - apply Qnot_le_lt. intros L. apply Qle_bool_iff in L. congruence.
  - apply Qle_bool_iff. now apply negb_false_iff.
Qed.

(** ** The capacity ledger of the client *)


(** What [handleSubmit] does to the bins and to the store: nothing, or it
    appends one bin whose amount is positive and fits the remaining
    capacity, and stores the new list unless the write is refused. *)
Lemma handleSubmit_bins now_id now_createdAt accepts st s :
  let '(s', st') := Client.handleSubmit now_id now_createdAt accepts st s in
  (Client.bins s' = Client.bins s /\ st' = st) \/
  (exists b,
      Client.bins s' = Client.bins s ++ [b] /\
      BinData.id b = now_id /\
      JS.parseFloat (Client.amount s) = JS.Num (BinData.amount b) /\
      (0 < BinData.amount b)%Q /\
      (BinData.amount b <= Client.remainingCapacity s)%Q /\
      st' = if accepts then Some (LocalStorage.Json (Client.bins s')) else st).
Proof.
  unfold Client.handleSubmit.
  destruct (String.eqb (Client.amount s) ""); [left; now simpl|].
  destruct (Client.latLng s) as [pin|]; [|left; now simpl].
  destruct (JS.isNaN _) eqn:Hnan; [left; now simpl|].
  destruct (JS.le_Q _ 0) eqn:Hpos; [left; now simpl|].
  destruct (JS.gt_Q _ _) eqn:Hcap; [left; now simpl|].
  destruct (gt_Q_finite _ _ Hnan Hpos Hcap) as (v & Hv & Hv0 & Hvcap).
  rewrite Hv. destruct accepts; simpl; right; eexists; (split; [reflexivity|]); simpl; auto.
Qed.








(** ** Loading the persisted bins *)





(** ** Adding and clearing in the client portal *)

Lemma handleSubmit_accepted now_id now_createdAt accepts st s pin v :
  Client.latLng s = Some pin ->
  JS.parseFloat (Client.amount s) = JS.Num v ->
  (0 < v)%Q -> (v <= Client.remainingCapacity s)%Q ->
  Client.handleSubmit now_id now_createdAt accepts st s =
  let updatedBins := Client.bins s ++ [Client.newBin now_id now_createdAt pin (JS.Num v) s] in
  let s' := Client.setBins updatedBins
              (Client.setNotification None (Client.setIsSubmitting true s)) in
  let done s' :=
    Client.setIsSubmitting false
      (Client.setLatLng None (Client.setAmount "" (Client.setLocation "" s'))) in
  match LocalStorage.setItem accepts (LocalStorage.JSON_stringify updatedBins) st with
  | Some st' =>
      (done (Client.setNotification
               (Some {| type := success;
                        message := "Bin details submitted successfully!" |}) s'), st')
  | None =>
      (done (Client.setNotification
               (Some {| type := error;
                        message := "Failed to save bin. Data might be lost on refresh." |}) s'),
       st)
  end.
Proof.
  intros Hpin Hv Hpos Hfit. unfold Client.handleSubmit.
  destruct (String.eqb_spec (Client.amount s) "") as [E|_].
  { rewrite E in Hv. discriminate Hv. }
  rewrite Hpin, Hv. simpl.
  assert (Qle_bool v 0 = false) as ->.
  { destruct (Qle_bool v 0) eqn:E; [|reflexivity]. apply Qle_bool_iff in E. lra. }
  assert (Qle_bool v (Client.remainingCapacity s) = true) as ->
    by now apply Qle_bool_iff.
  simpl. now destruct accepts.
Qed.

(** C8. When the write to the store throws while a valid submission is
    being added, the new bin stays in the in-memory list (no rollback), the
    store keeps what it held, the user is warned that the data might be lost
    on refresh, and the handler runs to its end: the form is reset and the
    submitting flag is lowered. *)
Theorem failed_write_is_not_rolled_back
    (now_id now_createdAt : string) (accepts : bool) (st : LocalStorage.t)
    (s : Client.State) (pin : LatLngLiteral.t) (v : Q)
    (Hpin : Client.latLng s = Some pin)
    (Hv : JS.parseFloat (Client.amount s) = JS.Num v)
    (Hpos : (0 < v)%Q) (Hfit : (v <= Client.remainingCapacity s)%Q)
    (Hthrows :
       LocalStorage.setItem accepts
         (LocalStorage.JSON_stringify
            (Client.bins s ++ [Client.newBin now_id now_createdAt pin (JS.Num v) s])) st = None) :
  let s' := (Client.handleSubmit now_id now_createdAt accepts st s).1 in
  let st' := (Client.handleSubmit now_id now_createdAt accepts st s).2 in
  Client.bins s' = Client.bins s ++ [Client.newBin now_id now_createdAt pin (JS.Num v) s] /\
  st' = st /\
  Client.notification s' =
    Some {| type := error;
            message := "Failed to save bin. Data might be lost on refresh." |} /\
  Client.amount s' = "" /\ Client.latLng s' = None /\ Client.location s' = "" /\
  Client.isSubmitting s' = false.
Proof.
  rewrite (handleSubmit_accepted now_id now_createdAt accepts st s pin v Hpin Hv Hpos Hfit).
  cbv zeta. rewrite Hthrows. simpl. repeat split.
Qed.

Lemma failed_write_is_not_rolled_back_witness :
  let s := (Client.run [Client.MapClick (Some Scenario.pin) false; Client.ChangeAmount "12.5"]
              None Client.initial).1 in
  let s' := (Client.handleSubmit "2025-05-20T08:00:00.000Z" "2025-05-20T08:00:00.001Z"
               false None s).1 in
  Client.bins s' =
    [Client.newBin "2025-05-20T08:00:00.000Z" "2025-05-20T08:00:00.001Z"
       Scenario.pin (JS.Num (125 # 10)) s] /\
  (Client.handleSubmit "2025-05-20T08:00:00.000Z" "2025-05-20T08:00:00.001Z"
     false None s).2 = None /\
  Client.notification s' =
    Some {| type := error;
            message := "Failed to save bin. Data might be lost on refresh." |} /\
  Client.amount s' = "" /\ Client.latLng s' = None /\ Client.location s' = "" /\
  Client.isSubmitting s' = false.
Proof.
  intros s.
  apply (failed_write_is_not_rolled_back
           "2025-05-20T08:00:00.000Z" "2025-05-20T08:00:00.001Z" false None s
           Scenario.pin (125 # 10)).
  - reflexivity.
  - vm_compute. reflexivity.
  - reflexivity.
  - vm_compute. discriminate.
  - reflexivity.
Defined.

(** C9. [handleClear] empties the bin list, which brings the committed total
    to 0, and removes the persisted list, so that either portal mounted
    afterwards loads no bins.  It has no failing path, and clearing a second
    time changes nothing. *)
Theorem clear_empties_everything (st : LocalStorage.t) (s : Client.State) :
  let s' := (Client.handleClear st s).1 in
  let st' := (Client.handleClear st s).2 in
  Client.bins s' = [] /\
  (Client.totalAmount s' == 0)%Q /\
  LocalStorage.getItem st' = None /\
  Client.bins (Client.mount st') = [] /\
  Driver.bins (Driver.mount st') = [] /\
  Client.handleClear st' s' = (s', st').
Proof. simpl. repeat split. Qed.

(** ** Identifiers of the bins *)

(** C10 on the code: the identifier of a new bin is the reading of the clock
    and nothing else, so two submissions made while the clock shows the same
    millisecond put two different bins with one identifier in the list. *)
Theorem same_instant_same_id :
  let s := (Client.run Scenario.same_instant None Client.initial).1 in
  exists b1 b2,
    Client.bins s = [b1; b2] /\
    BinData.id b1 = BinData.id b2 /\
    ~ (BinData.amount b1 == BinData.amount b2)%Q.
Proof.
  vm_compute. do 2 eexists. split; [reflexivity|]. split; [reflexivity|].
  discriminate.
Qed.


(** ** The driver portal from mount on *)

Lemma driver_run_snoc es e x : Driver.run (es ++ [e]) x = Driver.step e (Driver.run es x).
Proof. unfold Driver.run. now rewrite fold_left_app. Qed.

Lemma driver_run_ind (P : Driver.Session -> Prop) (x : Driver.Session) :
  P x -> (forall e y, P y -> P (Driver.step e y)) -> forall es, P (Driver.run es x).
Proof.
  intros Hx Hstep es. induction es as [|e es IH] using rev_ind; [exact Hx|].
  rewrite driver_run_snoc. now apply Hstep.
Qed.

Lemma driver_mount_view st :
  Driver.driverLocation (Driver.mount st) = Driver.DEFAULT_CENTER /\
  Driver.isLoadingRoute (Driver.mount st) = false /\
  Driver.routePlanned (Driver.mount st) = false /\
  Driver.routeSummary (Driver.mount st) = None.
Proof.
  unfold Driver.mount, Driver.loadBins.
  destruct st as [[l|raw]|]; simpl; auto.
  - destruct l; simpl; auto.
  - destruct raw; simpl; auto.
Qed.

Lemma driver_step_bins e x :
  Driver.bins (Driver.view (Driver.step e x)) = Driver.bins (Driver.view x).
Proof.
  destruct e; simpl; try reflexivity.
  - destruct (Driver.planDisabled _); [reflexivity|].
    unfold Driver.planRoute.
    destruct (negb _); [reflexivity|]. now destruct (length _ =? 0)%nat.
  - now destruct (Driver.routePlanned _).
  - destruct (Driver.inFlight x); [reflexivity|]. simpl.
    unfold Driver.onRoute.
    destruct status, result as [[[|r rs]]|]; reflexivity.
Qed.

Lemma start_consistent st : session_consistent (Driver.start st).
Proof.
  destruct (driver_mount_view st) as (Hloc & Hload & Hplan & Hsum).
  unfold session_consistent. simpl. rewrite Hload. auto.
Qed.

Lemma length_0_nil {A} (l : list A) : (length l =? 0)%nat = true <-> l = [].
Proof. destruct l; simpl; split; congruence. Qed.

Lemma step_consistent e x : session_consistent x -> session_consistent (Driver.step e x).
Proof.
  intros Hx. pose proof Hx as (Hloc & Hfly & Hnone).
  destruct e; simpl.
  - (* the notification times out *) exact Hx.
  - (* the map is handed over *) exact Hx.
  - (* Plan Route *)
    unfold Driver.planDisabled.
    destruct (Driver.isLoadingRoute (Driver.view x)) eqn:Hl; [exact Hx|].
    destruct (Driver.routePlanned (Driver.view x)) eqn:Hp; [exact Hx|].
    destruct (length (Driver.bins (Driver.view x)) =? 0)%nat eqn:Hb; [exact Hx|].
    assert (Driver.bins (Driver.view x) <> []) as Hbins.
    { intros E. apply length_0_nil in E. congruence. }
    simpl. unfold Driver.planRoute. rewrite Hb.
    destruct (Driver.map (Driver.view x)); unfold session_consistent; simpl.
    + rewrite Hfly. split; [exact Hloc|]. split; [now split|]. now intros E.
    + rewrite Hl, Hfly. split; [exact Hloc|]. split; [reflexivity|]. now intros E.
  - (* Clear Route *)
    destruct (Driver.routePlanned (Driver.view x)) eqn:Hp; [|exact Hx].
    unfold session_consistent. simpl. split; [exact Hloc|]. split; [exact Hfly|]. auto.
  - (* the service answers *)
    destruct (Driver.inFlight x) as [|r rest] eqn:Hq; [exact Hx|].
    destruct (Driver.isLoadingRoute (Driver.view x)) eqn:Hl; [|discriminate Hfly].
    destruct Hfly as [Hone Hbins]. simpl in Hone.
    assert (rest = []) as -> by (destruct rest; [reflexivity | discriminate Hone]).
    unfold session_consistent, Driver.onRoute. simpl.
    destruct status, result as [[[|r0 rs]]|]; simpl;
      (split; [exact Hloc|]; split; [reflexivity|]; intros E; congruence).
Qed.

Lemma run_consistent st es : session_consistent (Driver.run es (Driver.start st)).
Proof.
  apply driver_run_ind; [apply start_consistent | intros e y; apply step_consistent].
Qed.

(** ** The route request *)

Lemma routeRequest_snoc (d : Driver.State) (pre : list BinData.t) (b : BinData.t) :
  Driver.bins d = pre ++ [b] ->
  Driver.routeRequest d =
  {| Driver.origin := Driver.driverLocation d;
     Driver.destination :=
       Some {| LatLngLiteral.lat := BinData.lat b; LatLngLiteral.lng := BinData.lng b |};
     Driver.waypoints :=
       List.map (fun w => {| Driver.location := Driver.LatLng_new (BinData.lat w) (BinData.lng w);
                             Driver.stopover := true |}) pre;
     Driver.optimizeWaypoints := true;
     Driver.travelMode := Driver.DRIVING |}.
Proof.
  intros E. unfold Driver.routeRequest. rewrite E, List.map_app. simpl.
  rewrite last_snoc, removelast_last, List.map_map. reflexivity.
Qed.

(** C4. In a driver portal, at any point after its mount, with a non-empty
    bin list [pre ++ [b]]: the request built for the routing service has the
    fixed depot as origin, the last bin [b] as destination, one waypoint
    with [stopover = true] for each bin of [pre], in the order of the list
    and with nothing merged (as many waypoints as bins in [pre]),
    [optimizeWaypoints = true] and driving as travel mode; this is the
    request [planRoute] sends once the map is there.  With a single bin
    ([pre = []]) the waypoint list is empty. *)
Theorem route_request_shape
    (st : LocalStorage.t) (es : list Driver.event) (pre : list BinData.t) (b : BinData.t)
    (Hbins : Driver.bins (Driver.view (Driver.run es (Driver.start st))) = pre ++ [b]) :
  let d := Driver.view (Driver.run es (Driver.start st)) in
  Driver.routeRequest d =
  {| Driver.origin := Driver.DEFAULT_CENTER;
     Driver.destination :=
       Some {| LatLngLiteral.lat := BinData.lat b; LatLngLiteral.lng := BinData.lng b |};
     Driver.waypoints :=
       List.map (fun w => {| Driver.location := Driver.LatLng_new (BinData.lat w) (BinData.lng w);
                             Driver.stopover := true |}) pre;
     Driver.optimizeWaypoints := true;
     Driver.travelMode := Driver.DRIVING |} /\
  length (Driver.waypoints (Driver.routeRequest d)) = length pre /\
  (Driver.map d = true -> (Driver.planRoute d).2 = Some (Driver.routeRequest d)).
Proof.
  intros d. pose proof (run_consistent st es) as (Hloc & _ & _). fold d in Hloc.
  rewrite (routeRequest_snoc d pre b Hbins), Hloc. simpl.
  split; [reflexivity|]. split; [apply List.length_map|].
  intros Hmap. unfold Driver.planRoute. rewrite Hmap. fold d in Hbins. rewrite Hbins.
  rewrite length_app. simpl. rewrite Nat.add_1_r. simpl.
  now rewrite (routeRequest_snoc d pre b Hbins), Hloc.
Qed.

(** With A(1,1), B(2,2), C(3,3) loaded: from the depot to C via A and B. *)
Lemma route_request_shape_witness :
  Driver.routeRequest (Driver.view Scenario.ready) =
  {| Driver.origin := Driver.DEFAULT_CENTER;
     Driver.destination := Some {| LatLngLiteral.lat := 3; LatLngLiteral.lng := 3 |};
     Driver.waypoints :=
       [ {| Driver.location := Driver.LatLng_new 1 1; Driver.stopover := true |};
         {| Driver.location := Driver.LatLng_new 2 2; Driver.stopover := true |} ];
     Driver.optimizeWaypoints := true;
     Driver.travelMode := Driver.DRIVING |} /\
  (Driver.planRoute (Driver.view Scenario.ready)).2 =
    Some (Driver.routeRequest (Driver.view Scenario.ready)).
Proof.
  destruct (route_request_shape Scenario.stored_ABC [Driver.MapLoad]
              [Scenario.A; Scenario.B] Scenario.C eq_refl) as (Hreq & _ & Hsent).
  split; [exact Hreq | exact (Hsent eq_refl)].
Defined.

(** ** Planning without bins *)

(** C5, as claimed, fails while the map has not been handed over: with no
    bins, [planRoute] then answers that the map is not ready, not that
    there are no bins. *)
Lemma no_bins_but_map_not_ready :
  ~ (forall d : Driver.State,
        Driver.bins d = [] ->
        (Driver.planRoute d).2 = None /\
        Driver.notification (Driver.planRoute d).1 =
          Some {| type := info; message := "No bins to plan route." |}).
Proof.
  intros H. destruct (H (Driver.mount None) eq_refl) as [_ Hn]. discriminate Hn.
Qed.

(** C5, amended. In a driver portal, at any point after its mount, with an
    empty bin list: [planRoute] sends no request and leaves the plan as it
    is, which is unplanned, not loading, without summary and with no request
    outstanding; it answers that there are no bins to plan when the map is
    there, and that the map is not ready when it is not.  The Plan Route
    button is disabled, so a click on it changes nothing. *)
Theorem planning_without_bins
    (st : LocalStorage.t) (es : list Driver.event)
    (Hbins : Driver.bins (Driver.view (Driver.run es (Driver.start st))) = []) :
  let x := Driver.run es (Driver.start st) in
  let d' := (Driver.planRoute (Driver.view x)).1 in
  (Driver.planRoute (Driver.view x)).2 = None /\
  Driver.inFlight x = [] /\
  Driver.routePlanned d' = false /\
  Driver.isLoadingRoute d' = false /\
  Driver.routeSummary d' = None /\
  Driver.notification d' =
    Some (if Driver.map (Driver.view x)
          then {| type := info; message := "No bins to plan route." |}
          else {| type := error; message := "Map not ready." |}) /\
  Driver.step Driver.ClickPlanRoute x = x.
Proof.
  intros x d'. pose proof (run_consistent st es) as (_ & Hfly & Hnone).
  fold x in Hbins, Hfly, Hnone. destruct (Hnone Hbins) as [Hplan Hsum].
  destruct (Driver.isLoadingRoute (Driver.view x)) eqn:Hl.
  { destruct Hfly as [_ Hne]. contradiction. }
  assert (Driver.step Driver.ClickPlanRoute x = x) as Hclick.
  { simpl. unfold Driver.planDisabled. rewrite Hbins. simpl. now rewrite !orb_true_r. }
  subst d'. unfold Driver.planRoute. rewrite Hbins. simpl.
  destruct (Driver.map (Driver.view x)); simpl; repeat split; assumption.
Qed.

Lemma planning_without_bins_witness :
  let x := Driver.run [Driver.MapLoad] (Driver.start None) in
  (Driver.planRoute (Driver.view x)).2 = None /\
  Driver.routePlanned (Driver.planRoute (Driver.view x)).1 = false /\
  Driver.routeSummary (Driver.planRoute (Driver.view x)).1 = None /\
  Driver.notification (Driver.planRoute (Driver.view x)).1 =
    Some {| type := info; message := "No bins to plan route." |}.
Proof.
  intros x.
  destruct (planning_without_bins None [Driver.MapLoad] eq_refl)
    as (Hreq & _ & Hplan & _ & Hsum & Hnote & _).
  split; [exact Hreq|]. split; [exact Hplan|]. split; [exact Hsum | exact Hnote].
Defined.

(** ** One request at a time *)

(** C6, as claimed, fails on the report.  While the first request is in
    flight, a second click on Plan Route sends nothing but reports nothing
    either: no notification shows afterwards.  And [planRoute] itself has no
    guard: called in that state it would send a second request. *)
Lemma second_request_is_not_reported :
  ~ (forall x : Driver.Session,
        Driver.isLoadingRoute (Driver.view x) = true ->
        Driver.inFlight (Driver.step Driver.ClickPlanRoute x) = Driver.inFlight x /\
        exists n,
          Driver.notification (Driver.view (Driver.step Driver.ClickPlanRoute x)) = Some n)
  /\
  ~ (forall d : Driver.State,
        Driver.isLoadingRoute d = true -> (Driver.planRoute d).2 = None).
Proof.
  split; intros H.
  - destruct (H Scenario.planning eq_refl) as (_ & n & Hn). discriminate Hn.
  - specialize (H (Driver.view Scenario.planning) eq_refl). discriminate H.
Qed.

(** C6, amended. In a driver portal, at any point after its mount, at most
    one routing request is in flight, and one is in flight exactly while the
    route is loading.  While the route is loading or planned the Plan Route
    button is disabled: a click on it is not delivered, so it sends nothing
    and leaves the whole session, notification included, as it was. *)
Theorem one_request_in_flight (st : LocalStorage.t) (es : list Driver.event) :
  let x := Driver.run es (Driver.start st) in
  (length (Driver.inFlight x) <= 1)%nat /\
  (length (Driver.inFlight x) = 1%nat <-> Driver.isLoadingRoute (Driver.view x) = true) /\
  (Driver.isLoadingRoute (Driver.view x) || Driver.routePlanned (Driver.view x) = true ->
   Driver.step Driver.ClickPlanRoute x = x).
Proof.
  intros x. pose proof (run_consistent st es) as (_ & Hfly & _). fold x in Hfly.
  split; [|split].
  - destruct (Driver.isLoadingRoute (Driver.view x)); [destruct Hfly as [-> _]|rewrite Hfly];
      simpl; lia.
  - destruct (Driver.isLoadingRoute (Driver.view x)).
    + now destruct Hfly as [-> _].
    + rewrite Hfly. simpl. split; discriminate.
  - intros Hbusy. simpl. unfold Driver.planDisabled. now rewrite Hbusy.
Qed.

Lemma one_request_in_flight_witness :
  (length (Driver.inFlight Scenario.planning) <= 1)%nat /\
  Driver.step Driver.ClickPlanRoute Scenario.planning = Scenario.planning /\
  Driver.step Driver.ClickPlanRoute Scenario.planned = Scenario.planned.
Proof.
  split; [|split].
  - exact (proj1 (one_request_in_flight Scenario.stored_ABC
                    [Driver.MapLoad; Driver.ClickPlanRoute])).
  - exact (proj2 (proj2 (one_request_in_flight Scenario.stored_ABC
                           [Driver.MapLoad; Driver.ClickPlanRoute])) eq_refl).
  - exact (proj2 (proj2 (one_request_in_flight Scenario.stored_ABC
                           [Driver.MapLoad; Driver.ClickPlanRoute;
                            Driver.RouteAnswer (Some (Scenario.answer Scenario.three_legs))
                              Driver.OK])) eq_refl).
Defined.

(** ** The summary of a planned route *)










(** ** The plan and the mutations of the bin set *)

Lemma driver_step_stays_planned e x :
  Driver.routePlanned (Driver.view x) = true ->
  Driver.routePlanned (Driver.view (Driver.step e x)) = false ->
  e = Driver.ClickClearRoute.
Proof.
  intros Hp. destruct e; simpl; try congruence.
  - unfold Driver.planDisabled. rewrite Hp, orb_true_r. simpl. congruence.
  - destruct (Driver.inFlight x); [congruence|]. simpl.
    unfold Driver.onRoute.
    destruct status, result as [[[|r rs]]|]; simpl; congruence.
Qed.

(** C2, as claimed, fails: the client's handlers have no access to the
    plan.  With a client portal in tab 0 and a driver portal with a planned
    route in tab 1, clearing the bins in the client, or adding one, changes
    the persisted list and leaves the driver portal planned, on the bins it
    had loaded. *)
Lemma plan_survives_mutation :
  ~ (forall (w : App.World) (tab tab' : nat) (x : Driver.Session) (e : Client.event),
        App.tabs w !! tab' = Some (App.DriverPortal x) ->
        Driver.routePlanned (Driver.view x) = true ->
        App.localStorage (App.step (App.OnClient tab e) w) <> App.localStorage w ->
        exists x',
          App.tabs (App.step (App.OnClient tab e) w) !! tab' = Some (App.DriverPortal x') /\
          Driver.routePlanned (Driver.view x') = false)
  /\
  (let w := Scenario.two_tabs_filled in
   let w' := App.step (App.OnClient 0 (Client.Submit "2025-05-20T09:00:00.000Z"
                                         "2025-05-20T09:00:00.000Z" true)) w in
   App.localStorage w = Scenario.stored_ABC /\
   (exists b, App.localStorage w' =
              Some (LocalStorage.Json [Scenario.A; Scenario.B; Scenario.C; b])) /\
   App.tabs w' !! 1%nat = Some (App.DriverPortal Scenario.planned) /\
   Driver.routePlanned (Driver.view Scenario.planned) = true).
Proof.
  split.
  - intros H.
    destruct (H Scenario.two_tabs 0%nat 1%nat Scenario.planned Client.Clear)
      as (x' & Hx' & Hp).
    + vm_compute. reflexivity.
    + vm_compute. reflexivity.
    + vm_compute. discriminate.
    + vm_compute in Hx'. injection Hx' as <-. vm_compute in Hp. discriminate Hp.
  - vm_compute. split; [reflexivity|]. split; [eexists; reflexivity|]. split; reflexivity.
Qed.

(** C2, amended. A driver portal whose route is planned stays planned
    through every event of the application, in its own tab or in another,
    except a click on its Clear Route button and a navigation of its tab to
    the driver page, which mounts the portal afresh, unplanned.  The
    mutations of the bin set made in a client portal (add, clear) leave the
    driver portal exactly as it was; short of being mounted afresh it keeps
    the bins it loaded at mount. *)
Theorem plan_left_only_by_clear_or_remount
    (w : App.World) (e : App.event) (tab : nat) (x x' : Driver.Session)
    (Hx : App.tabs w !! tab = Some (App.DriverPortal x))
    (Hplanned : Driver.routePlanned (Driver.view x) = true)
    (Hx' : App.tabs (App.step e w) !! tab = Some (App.DriverPortal x')) :
  (Driver.routePlanned (Driver.view x') = false ->
   e = App.OnDriver tab Driver.ClickClearRoute \/ e = App.Navigate tab App.driver) /\
  (forall t ce, e = App.OnClient t ce -> x' = x) /\
  (e = App.Navigate tab App.driver \/
   Driver.bins (Driver.view x') = Driver.bins (Driver.view x)).
Proof.
  pose proof (lookup_lt_Some _ _ _ Hx) as Hlt.
  assert (x' = x -> (Driver.routePlanned (Driver.view x') = false ->
            e = App.OnDriver tab Driver.ClickClearRoute \/ e = App.Navigate tab App.driver) /\
          (e = App.Navigate tab App.driver \/
             Driver.bins (Driver.view x') = Driver.bins (Driver.view x))) as Hsame.
  { intros ->. split; [congruence | now right]. }
  destruct e as [p | t p | t ce | t de]; simpl in Hx'.
  - (* a tab is opened *)
    rewrite lookup_app_l in Hx' by exact Hlt.
    assert (x' = x) as E by congruence.
    destruct (Hsame E). split; [assumption|]. split; [discriminate | assumption].
  - (* a tab navigates *)
    destruct (decide (t = tab)) as [->|Hne].
    + rewrite list_lookup_insert_eq in Hx' by exact Hlt.
      destruct p; try discriminate Hx'.
      split; [now right|]. split; [discriminate | now left].
    + rewrite list_lookup_insert_ne in Hx' by exact Hne.
      assert (x' = x) as E by congruence.
      destruct (Hsame E). split; [assumption|]. split; [discriminate | assumption].
  - (* an event of a client portal *)
    assert (x' = x) as E.
    { destruct (App.tabs w !! t) as [[|s|y]|] eqn:Ht; simpl in Hx'; try congruence.
      destruct (Client.step ce (App.localStorage w) s) as [s' st']. simpl in Hx'.
      destruct (decide (t = tab)) as [->|Hne]; [congruence|].
      rewrite list_lookup_insert_ne in Hx' by exact Hne. congruence. }
    destruct (Hsame E). split; [assumption|]. split; [now intros | assumption].
  - (* an event of a driver portal *)
    destruct (App.tabs w !! t) as [[|s|y]|] eqn:Ht; simpl in Hx';
      try (assert (x' = x) as E by congruence;
           destruct (Hsame E); split; [assumption|]; split; [discriminate | assumption]).
    destruct (decide (t = tab)) as [->|Hne].
    + rewrite list_lookup_insert_eq in Hx' by exact Hlt.
      assert (y = x) as -> by congruence.
      assert (x' = Driver.step de x) as -> by congruence.
      split; [|split; [discriminate|]].
      * intros Hp. left. f_equal. now apply (driver_step_stays_planned de x).
      * right. apply driver_step_bins.
    + rewrite list_lookup_insert_ne in Hx' by exact Hne.
      assert (x' = x) as E by congruence.
      destruct (Hsame E). split; [assumption|]. split; [discriminate | assumption].
Qed.

Lemma plan_left_only_by_clear_or_remount_witness :
  let w := Scenario.two_tabs in
  let e := App.OnClient 0 Client.Clear in
  App.localStorage w = Scenario.stored_ABC /\
  App.localStorage (App.step e w) = None /\
  App.tabs w !! 1%nat = Some (App.DriverPortal Scenario.planned) /\
  Driver.routePlanned (Driver.view Scenario.planned) = true /\
  App.tabs (App.step e w) !! 1%nat = Some (App.DriverPortal Scenario.planned) /\
  (forall t ce, e = App.OnClient t ce -> Scenario.planned = Scenario.planned) /\
  (e = App.Navigate 1 App.driver \/
   Driver.bins (Driver.view Scenario.planned) = Driver.bins (Driver.view Scenario.planned)).
Proof.
  intros w e.
  assert (App.tabs w !! 1%nat = Some (App.DriverPortal Scenario.planned))
    as Hx by (vm_compute; reflexivity).
  assert (Driver.routePlanned (Driver.view Scenario.planned) = true)
    as Hplanned by (vm_compute; reflexivity).
  assert (App.tabs (App.step e w) !! 1%nat = Some (App.DriverPortal Scenario.planned))
    as Hx' by (vm_compute; reflexivity).
  split; [vm_compute; reflexivity|]. split; [vm_compute; reflexivity|].
  split; [exact Hx|]. split; [exact Hplanned|]. split; [exact Hx'|].
  exact (proj2 (plan_left_only_by_clear_or_remount w e 1 Scenario.planned Scenario.planned
                  Hx Hplanned Hx')).
Defined.

(** ** The capacity across tabs *)





(** * Further properties of the two portals *)

(** ** What is persisted is what is shown *)

Lemma portals_load_alike st :
  Driver.bins (Driver.mount st) = Client.bins (Client.mount st).
Proof.
  unfold Driver.mount, Client.mount, Driver.loadBins, Client.loadBins.
  destruct st as [[l|raw]|]; simpl; try reflexivity.
  - now destruct l.
  - now destruct raw.
Qed.

Lemma client_step_persisted e st s :
  write_accepted e = true ->
  Client.bins (Client.mount st) = Client.bins s ->
  Client.bins (Client.mount (Client.step e st s).2) = Client.bins (Client.step e st s).1.
Proof.
  intros Hw Hs.
  destruct e as [| | | | |[pos|] [|]|[[|]|]| |]; simpl; try exact Hs.
  - now destruct (Client.amountDisabled s).
  - destruct (Client.submitDisabled s); [exact Hs|].
    simpl in Hw. subst accepts.
    pose proof (handleSubmit_bins now_id now_createdAt true st s) as H.
    destruct (Client.handleSubmit _ _ _ _ _) as [s' st']. simpl.
    destruct H as [[Hb ->] | (b & Hb & _ & _ & _ & _ & ->)]; [now rewrite Hb|].
    reflexivity.
  - now destruct (Client.clearDisabled s).
Qed.

Lemma client_run_persisted es : forall st s,
  forallb write_accepted es = true ->
  Client.bins (Client.mount st) = Client.bins s ->
  Client.bins (Client.mount (Client.run es st s).2) = Client.bins (Client.run es st s).1.
Proof.
  induction es as [|e es IH]; intros st s Hw Hs; [exact Hs|].
  simpl in Hw. apply andb_true_iff in Hw as [He Hes].
  simpl. pose proof (client_step_persisted e st s He Hs) as H.
  destruct (Client.step e st s) as [s' st']. now apply IH.
Qed.

(** X1. As long as the browser accepts every write, what a client portal
    shows is what is persisted: after any sequence of events from its
    mount, a client portal or a driver portal mounted on the store as it
    then is loads exactly the bins the portal holds, in the same order. *)
Theorem persisted_bins_round_trip (st0 : LocalStorage.t) (es : list Client.event)
    (Hwrites : forallb write_accepted es = true) :
  let s := (Client.run es st0 (Client.mount st0)).1 in
  let st := (Client.run es st0 (Client.mount st0)).2 in
  Client.bins (Client.mount st) = Client.bins s /\
  Driver.bins (Driver.mount st) = Client.bins s.
Proof.
  intros s st.
  assert (Client.bins (Client.mount st) = Client.bins s) as H
    by now apply client_run_persisted.
  split; [exact H|]. now rewrite portals_load_alike.
Qed.

Lemma persisted_bins_round_trip_witness :
  let s := (Client.run Scenario.three_bins_then_ten None (Client.mount None)).1 in
  let st := (Client.run Scenario.three_bins_then_ten None (Client.mount None)).2 in
  length (Client.bins s) = 3%nat /\
  Client.bins (Client.mount st) = Client.bins s /\
  Driver.bins (Driver.mount st) = Client.bins s.
Proof.
  intros s st. split; [vm_compute; reflexivity|].
  apply (persisted_bins_round_trip None Scenario.three_bins_then_ten).
  vm_compute. reflexivity.
Defined.


(** ** The ledger *)






(** ** What a submission does to the form and to the list *)




Lemma client_step_prefix e st s :
  is_clear e = false -> Client.bins s `prefix_of` Client.bins (Client.step e st s).1.
Proof.
  intros Hc.
  destruct e as [| | | | |[pos|] [|]|[[|]|]| |]; simpl; try reflexivity; try discriminate.
  - now destruct (Client.amountDisabled s).
  - destruct (Client.submitDisabled s); [reflexivity|].
    pose proof (handleSubmit_bins now_id now_createdAt accepts st s) as H.
    destruct (Client.handleSubmit _ _ _ _ _) as [s' st']. simpl.
    destruct H as [[-> _] | (b & -> & _)]; [reflexivity|]. now apply prefix_app_r.
Qed.

(** X6. Short of a clear, the list of a client portal only grows at its
    end: after any sequence of events without a click on Clear, the bins
    the portal started with are still there, first and in their order;
    nothing is removed, reordered or edited. *)
Theorem bins_only_grow (es : list Client.event) (st0 : LocalStorage.t) (s0 : Client.State)
    (Hnoclear : forallb (fun e => negb (is_clear e)) es = true) :
  Client.bins s0 `prefix_of` Client.bins (Client.run es st0 s0).1.
Proof.
  revert st0 s0. induction es as [|e es IH]; intros st0 s0; [reflexivity|].
  simpl in Hnoclear. apply andb_true_iff in Hnoclear as [He Hes].
  apply negb_true_iff in He.
  simpl. pose proof (client_step_prefix e st0 s0 He) as H.
  destruct (Client.step e st0 s0) as [s1 st1]. simpl in H.
  etransitivity; [exact H | now apply IH].
Qed.

Lemma bins_only_grow_witness :
  Client.bins (Client.mount Scenario.stored_ABC)
  `prefix_of`
  Client.bins (Client.run (Scenario.submission "5" "2025-05-20T11:00:00.000Z" true)
                 Scenario.stored_ABC (Client.mount Scenario.stored_ABC)).1.
Proof.
  apply (bins_only_grow (Scenario.submission "5" "2025-05-20T11:00:00.000Z" true)).
  reflexivity.
Defined.


(** ** Identifiers *)

Lemma clock_readings_cons e es :
  clock_readings (e :: es) =
  match e with Client.Submit now_id _ _ => [now_id] | _ => [] end ++ clock_readings es.
Proof. reflexivity. Qed.

Lemma NoDup_drop_middle (l : list string) (x : string) (k : list string) :
  NoDup (l ++ x :: k) -> NoDup (l ++ k).
Proof.
  intros H. apply NoDup_app in H as (Hl & Hdisj & Hk).
  apply NoDup_cons in Hk as [_ Hk].
  apply NoDup_app. split; [exact Hl|]. split; [|exact Hk].
  intros y Hy Hyk. apply (Hdisj y Hy). now right.
Qed.

Lemma NoDup_tail (l k : list string) : NoDup (l ++ k) -> NoDup k.
Proof. intros H. now apply NoDup_app in H as (_ & _ & Hk). Qed.

(** X7. Identifiers stay unique as long as the clock never repeats: if the
    identifiers of the bins a client portal starts with and the clock
    readings taken by the submissions that follow are pairwise different,
    then after any sequence of events no two bins of the portal share an
    identifier. *)
Theorem distinct_clock_readings_give_unique_ids
    (es : list Client.event) (st0 : LocalStorage.t) (s0 : Client.State)
    (Hclock : NoDup (ids (Client.bins s0) ++ clock_readings es)) :
  NoDup (ids (Client.bins (Client.run es st0 s0).1)).
Proof.
  revert st0 s0 Hclock. induction es as [|e es IH]; intros st0 s0 Hclock.
  - simpl in *. now rewrite app_nil_r in Hclock.
  - simpl. destruct (Client.step e st0 s0) as [s1 st1] eqn:E. apply IH.
    rewrite clock_readings_cons in Hclock.
    destruct e as [| | | | |[pos|] [|]|[[|]|]| |]; simpl in E;
      try (inversion E; subst; exact Hclock).
    + destruct (Client.amountDisabled s0); inversion E; subst; exact Hclock.
    + simpl in Hclock.
      destruct (Client.submitDisabled s0).
      { inversion E; subst. now apply NoDup_drop_middle in Hclock. }
      pose proof (handleSubmit_bins now_id now_createdAt accepts st0 s0) as H.
      rewrite E in H. destruct H as [[-> _] | (b & -> & Hid & _)].
      * now apply NoDup_drop_middle in Hclock.
      * unfold ids in *. rewrite List.map_app. simpl. rewrite Hid.
        now rewrite <- app_assoc.
    + destruct (Client.clearDisabled s0); inversion E; subst; [exact Hclock|].
      simpl. now apply NoDup_tail in Hclock.
Qed.

Lemma distinct_clock_readings_give_unique_ids_witness :
  NoDup (ids (Client.bins (Client.run Scenario.three_bins_then_ten None Client.initial).1)).
Proof.
  apply distinct_clock_readings_give_unique_ids.
  vm_compute. repeat (constructor; [rewrite ?list_elem_of_In; simpl; intuition discriminate|]).
  constructor.
Defined.

(** ** The address of a pinned location *)

Lemma handleSubmit_pin now_id now_createdAt accepts st s :
  let s' := (Client.handleSubmit now_id now_createdAt accepts st s).1 in
  (Client.latLng s' = Client.latLng s /\ Client.location s' = Client.location s) \/
  Client.latLng s' = None.
Proof.
  unfold Client.handleSubmit.
  destruct (String.eqb (Client.amount s) ""); [left; now simpl|].
  destruct (Client.latLng s) as [pin|] eqn:Hpin; [|left; simpl; now rewrite Hpin].
  destruct (JS.isNaN _ || JS.le_Q _ 0); [left; simpl; now rewrite Hpin|].
  destruct (JS.gt_Q _ _); [left; simpl; now rewrite Hpin|].
  right. now destruct accepts.
Qed.

Lemma client_step_location e st s :
  answer_named e -> location_shown s -> location_shown (Client.step e st s).1.
Proof.
  intros Ha Hs.
  destruct e as [| | | | |[pos|] [|]|[[|a l]|]| |]; simpl; try exact Hs.
  - now destruct (Client.amountDisabled s).
  - right. discriminate.
  - right. discriminate.
  - right. discriminate.
  - right. exact Ha.
  - destruct (Client.submitDisabled s); [exact Hs|].
    destruct (handleSubmit_pin now_id now_createdAt accepts st s) as [[Hp Hl] | Hp];
      unfold location_shown; [rewrite Hp, Hl; exact Hs | now left].
  - destruct (Client.clearDisabled s); [exact Hs | now left].
Qed.

(** X8. In a client portal, from its mount on and as long as the geocoder
    never answers with an empty address, a pinned location always comes
    with a text in the location field (the address, "Fetching address...",
    "Address not found" or the coordinates).  So the bin built from the form
    takes that text as its location: the "Pinned: lat, lng" fallback of
    [handleSubmit] is never what gets stored. *)
Theorem pinned_location_has_text (st0 : LocalStorage.t) (es : list Client.event)
    (Hanswers : Forall answer_named es) :
  let s := (Client.run es st0 (Client.mount st0)).1 in
  forall pin, Client.latLng s = Some pin ->
    Client.location s <> "" /\
    forall now_id now_createdAt amountNumber,
      BinData.location (Client.newBin now_id now_createdAt pin amountNumber s)
      = Client.location s.
Proof.
  intros s.
  assert (location_shown s) as Hs.
  { subst s.
    assert (location_shown (Client.mount st0)) as H0.
    { left. unfold Client.mount, Client.loadBins.
      destruct st0 as [[l|raw]|]; simpl; try reflexivity. now destruct raw. }
    revert H0. generalize (Client.mount st0). generalize st0.
    induction Hanswers as [|e es He Hes IH]; intros st1 s1 H1; [exact H1|].
    simpl. pose proof (client_step_location e st1 s1 He H1) as H2.
    destruct (Client.step e st1 s1) as [s2 st2]. now apply IH. }
  intros pin Hpin. destruct Hs as [Hnone | Htext]; [congruence|].
  split; [exact Htext|]. intros now_id now_createdAt amountNumber. simpl.
  destruct (String.eqb_spec (Client.location s) ""); [contradiction | reflexivity].
Qed.

Lemma pinned_location_has_text_witness :
  Client.latLng Walkthrough.filled = Some Scenario.pin /\
  Client.location Walkthrough.filled = "12 Galle Road, Colombo" /\
  BinData.location
    (Client.newBin "2025-05-20T10:00:00.000Z" "2025-05-20T10:00:00.000Z" Scenario.pin
       (JS.Num (125 # 10)) Walkthrough.filled)
  = Client.location Walkthrough.filled.
Proof.
  split; [reflexivity|]. split; [reflexivity|].
  apply (pinned_location_has_text Scenario.stored_ABC
           [Client.MapClick (Some Scenario.pin) true;
            Client.GeocoderAnswer (Some ["12 Galle Road, Colombo"]);
            Client.ChangeAmount "12.5"]).
  - repeat constructor. discriminate.
  - reflexivity.
Defined.

(** ** From the client to the driver *)

Lemma driver_mount_stored (l : list BinData.t) (b : BinData.t) :
  Driver.mount (Some (LocalStorage.Json (l ++ [b]))) = Driver.setBins (l ++ [b]) Driver.initial.
Proof.
  unfold Driver.mount, Driver.loadBins. simpl.
  rewrite length_app. simpl. now rewrite Nat.add_1_r.
Qed.

(** X9. The bin a client has just submitted and persisted is where the
    driver's route ends: a driver portal mounted after an accepted and
    persisted submission loads the client's bins followed by the new one,
    can plan at once, and its route request goes from the depot to the
    pinned location of the new bin, with one stopover waypoint for each bin
    the client held before, in their order. *)
Theorem last_submission_is_the_destination
    (now_id now_createdAt : string) (st : LocalStorage.t)
    (s : Client.State) (pin : LatLngLiteral.t) (v : Q)
    (Hpin : Client.latLng s = Some pin)
    (Hv : JS.parseFloat (Client.amount s) = JS.Num v)
    (Hpos : (0 < v)%Q) (Hfit : (v <= Client.remainingCapacity s)%Q) :
  let st' := (Client.handleSubmit now_id now_createdAt true st s).2 in
  let d := Driver.mount st' in
  Driver.bins d = Client.bins s ++ [Client.newBin now_id now_createdAt pin (JS.Num v) s] /\
  Driver.planDisabled d = false /\
  Driver.routeRequest d =
  {| Driver.origin := Driver.DEFAULT_CENTER;
     Driver.destination := Some pin;
     Driver.waypoints := List.map waypoint_of (Client.bins s);
     Driver.optimizeWaypoints := true;
     Driver.travelMode := Driver.DRIVING |}.
Proof.
  intros st' d. subst d st'.
  rewrite (handleSubmit_accepted now_id now_createdAt true st s pin v Hpin Hv Hpos Hfit).
  cbv zeta. simpl. unfold LocalStorage.JSON_stringify. rewrite driver_mount_stored.
  split; [reflexivity|]. split.
  - unfold Driver.planDisabled. simpl. rewrite length_app. simpl. now rewrite Nat.add_1_r.
  - rewrite (routeRequest_snoc
               (Driver.setBins
                  (Client.bins s ++ [Client.newBin now_id now_createdAt pin (JS.Num v) s])
                  Driver.initial)
               (Client.bins s)
               (Client.newBin now_id now_createdAt pin (JS.Num v) s) eq_refl).
    simpl. now destruct pin.
Qed.

Lemma last_submission_is_the_destination_witness :
  let st' := (Client.handleSubmit "2025-05-20T10:00:00.000Z" "2025-05-20T10:00:00.000Z"
                true Scenario.stored_ABC Walkthrough.filled).2 in
  Driver.routeRequest (Driver.mount st') =
  {| Driver.origin := Driver.DEFAULT_CENTER;
     Driver.destination := Some Scenario.pin;
     Driver.waypoints := List.map waypoint_of [Scenario.A; Scenario.B; Scenario.C];
     Driver.optimizeWaypoints := true;
     Driver.travelMode := Driver.DRIVING |}.
Proof.
  intros st'.
  apply (last_submission_is_the_destination
           "2025-05-20T10:00:00.000Z" "2025-05-20T10:00:00.000Z"
           Scenario.stored_ABC Walkthrough.filled Scenario.pin (125 # 10)).
  - reflexivity.
  - vm_compute. reflexivity.
  - reflexivity.
  - vm_compute. discriminate.
Defined.

(** ** Two client portals over one store *)

Lemma submit_is_delivered (s : Client.State) (pin : LatLngLiteral.t) (v : Q) :
  Client.latLng s = Some pin -> Client.isSubmitting s = false ->
  (0 < v)%Q -> (v <= Client.remainingCapacity s)%Q ->
  Client.submitDisabled s = false.
Proof.
  intros Hpin Hsub Hpos Hfit. unfold Client.submitDisabled. rewrite Hpin, Hsub.
  destruct (Qle_bool (Client.remainingCapacity s) 0) eqn:E; [|reflexivity].
  apply Qle_bool_iff in E. lra.
Qed.

Lemma client_submit_persists now_id now_createdAt st s pin v :
  Client.latLng s = Some pin -> Client.isSubmitting s = false ->
  JS.parseFloat (Client.amount s) = JS.Num v ->
  (0 < v)%Q -> (v <= Client.remainingCapacity s)%Q ->
  exists s',
    Client.step (Client.Submit now_id now_createdAt true) st s =
      (s', Some (LocalStorage.Json
                   (Client.bins s ++ [Client.newBin now_id now_createdAt pin (JS.Num v) s]))) /\
    Client.bins s' = Client.bins s ++ [Client.newBin now_id now_createdAt pin (JS.Num v) s].
Proof.
  intros Hpin Hsub Hv Hpos Hfit. simpl.
  rewrite (submit_is_delivered s pin v Hpin Hsub Hpos Hfit).
  rewrite (handleSubmit_accepted now_id now_createdAt true st s pin v Hpin Hv Hpos Hfit).
  cbv zeta. simpl. eexists. split; reflexivity.
Qed.

(** X10. Writes are not merged.  With two client portals open in two tabs,
    each submitting a bin that it accepts and persists, one after the other:
    after the second submission the store holds the list of the second
    portal, its own bins followed by its new one, and a portal mounted then
    loads that list; the first portal still shows its own bins followed by
    the bin it added, which the store no longer has unless the second
    portal held it too. *)
Theorem second_writer_wins
    (w : App.World) (i j : nat) (si sj : Client.State)
    (ni ni' nj nj' : string) (pi pj : LatLngLiteral.t) (vi vj : Q)
    (Hij : i <> j)
    (Hi : App.tabs w !! i = Some (App.ClientPortal si))
    (Hj : App.tabs w !! j = Some (App.ClientPortal sj))
    (Hpi : Client.latLng si = Some pi) (Hsi : Client.isSubmitting si = false)
    (Hvi : JS.parseFloat (Client.amount si) = JS.Num vi)
    (Hposi : (0 < vi)%Q) (Hfiti : (vi <= Client.remainingCapacity si)%Q)
    (Hpj : Client.latLng sj = Some pj) (Hsj : Client.isSubmitting sj = false)
    (Hvj : JS.parseFloat (Client.amount sj) = JS.Num vj)
    (Hposj : (0 < vj)%Q) (Hfitj : (vj <= Client.remainingCapacity sj)%Q) :
  let bi := Client.newBin ni ni' pi (JS.Num vi) si in
  let bj := Client.newBin nj nj' pj (JS.Num vj) sj in
  let w1 := App.step (App.OnClient i (Client.Submit ni ni' true)) w in
  let w2 := App.step (App.OnClient j (Client.Submit nj nj' true)) w1 in
  App.localStorage w1 = Some (LocalStorage.Json (Client.bins si ++ [bi])) /\
  App.localStorage w2 = Some (LocalStorage.Json (Client.bins sj ++ [bj])) /\
  Client.bins (Client.mount (App.localStorage w2)) = Client.bins sj ++ [bj] /\
  exists si', App.tabs w2 !! i = Some (App.ClientPortal si') /\
              Client.bins si' = Client.bins si ++ [bi].
Proof.
  intros bi bj w1 w2.
  destruct (client_submit_persists ni ni' (App.localStorage w) si pi vi
              Hpi Hsi Hvi Hposi Hfiti) as (si' & Ei & Hbi).
  assert (w1 = {| App.localStorage := Some (LocalStorage.Json (Client.bins si ++ [bi]));
                  App.tabs := <[i := App.ClientPortal si']> (App.tabs w) |}) as E1.
  { subst w1. unfold App.step. rewrite Hi, Ei. reflexivity. }
  assert (App.tabs w1 !! j = Some (App.ClientPortal sj)) as Hj1.
  { rewrite E1. simpl. now rewrite list_lookup_insert_ne. }
  destruct (client_submit_persists nj nj' (App.localStorage w1) sj pj vj
              Hpj Hsj Hvj Hposj Hfitj) as (sj' & Ej & Hbj).
  assert (w2 = {| App.localStorage := Some (LocalStorage.Json (Client.bins sj ++ [bj]));
                  App.tabs := <[j := App.ClientPortal sj']> (App.tabs w1) |}) as E2.
  { subst w2. unfold App.step. rewrite Hj1, Ej. reflexivity. }
  split; [now rewrite E1|].
  split; [now rewrite E2|].
  split; [now rewrite E2|].
  exists si'. split; [|exact Hbi].
  rewrite E2, E1. simpl.
  rewrite list_lookup_insert_ne by (intros E; now apply Hij).
  apply list_lookup_insert_eq. now apply (lookup_lt_Some _ _ _ Hi).
Qed.

Lemma second_writer_wins_witness :
  let w2 := App.run [App.OnClient 0 (Client.Submit "2025-05-20T12:00:00.000Z"
                                       "2025-05-20T12:00:00.000Z" true);
                     App.OnClient 1 (Client.Submit "2025-05-20T12:00:05.000Z"
                                       "2025-05-20T12:00:05.000Z" true)]
              Walkthrough.two_clients in
  App.localStorage w2 =
    Some (LocalStorage.Json
            (Client.bins (Walkthrough.typed "7") ++
             [Client.newBin "2025-05-20T12:00:05.000Z" "2025-05-20T12:00:05.000Z"
                Scenario.pin (JS.Num 7) (Walkthrough.typed "7")])) /\
  exists s0,
    App.tabs w2 !! 0%nat = Some (App.ClientPortal s0) /\
    Client.bins s0 =
      Client.bins (Walkthrough.typed "5") ++
      [Client.newBin "2025-05-20T12:00:00.000Z" "2025-05-20T12:00:00.000Z"
         Scenario.pin (JS.Num 5) (Walkthrough.typed "5")].
Proof.
  intros w2.
  assert (App.tabs Walkthrough.two_clients !! 0%nat
          = Some (App.ClientPortal (Walkthrough.typed "5"))) as H0
    by (vm_compute; reflexivity).
  assert (App.tabs Walkthrough.two_clients !! 1%nat
          = Some (App.ClientPortal (Walkthrough.typed "7"))) as H1
    by (vm_compute; reflexivity).
  destruct (second_writer_wins Walkthrough.two_clients 0 1
              (Walkthrough.typed "5") (Walkthrough.typed "7")
              "2025-05-20T12:00:00.000Z" "2025-05-20T12:00:00.000Z"
              "2025-05-20T12:00:05.000Z" "2025-05-20T12:00:05.000Z"
              Scenario.pin Scenario.pin 5 7 (Nat.neq_0_succ 0) H0 H1)
    as (_ & Hst & _ & Hex).
  - reflexivity.
  - reflexivity.
  - vm_compute. reflexivity.
  - reflexivity.
  - vm_compute. discriminate.
  - reflexivity.
  - reflexivity.
  - vm_compute. reflexivity.
  - reflexivity.
  - vm_compute. discriminate.
  - split; [exact Hst | exact Hex].
Defined.

(** ** The flags of the driver portal *)

Lemma start_plan_consistent st : plan_consistent (Driver.start st).
Proof.
  unfold plan_consistent, Driver.start. simpl.
  unfold Driver.mount, Driver.loadBins.
  destruct st as [[[|b l]|[|c raw]]|]; simpl;
    (split; [reflexivity | split; [split; reflexivity | discriminate]]).
Qed.

Lemma step_plan_consistent e x :
  session_consistent x -> plan_consistent x -> plan_consistent (Driver.step e x).
Proof.
  intros (_ & Hfly & _) Hx. pose proof Hx as (Hload & Hun & Hpl).
  destruct e; simpl.
  - exact Hx.
  - exact Hx.
  - unfold Driver.planDisabled.
    destruct (Driver.isLoadingRoute (Driver.view x)) eqn:Hl; [exact Hx|].
    destruct (Driver.routePlanned (Driver.view x)) eqn:Hp; [exact Hx|].
    destruct (length (Driver.bins (Driver.view x)) =? 0)%nat eqn:Hb; [exact Hx|].
    simpl. unfold Driver.planRoute. rewrite Hb.
    destruct (Driver.map (Driver.view x)); unfold plan_consistent; simpl.
    + rewrite Hp. split; [reflexivity|]. split; [now split | discriminate].
    + rewrite Hl, Hp. split; [reflexivity|]. split; [exact (fun _ => Hun eq_refl) | discriminate].
  - destruct (Driver.routePlanned (Driver.view x)) eqn:Hp; [|exact Hx].
    unfold plan_consistent. simpl.
    split; [reflexivity|]. split; [now split | discriminate].
  - destruct (Driver.inFlight x) as [|r rest] eqn:Hq; [exact Hx|].
    destruct (Driver.isLoadingRoute (Driver.view x)) eqn:Hl; [|discriminate Hfly].
    destruct Hfly as [_ Hbins]. specialize (Hload eq_refl).
    destruct (Hun Hload) as [Hdir Hsum].
    unfold plan_consistent, Driver.onRoute. simpl.
    destruct status, result as [[[|r0 rs]]|]; simpl; rewrite ?Hload;
      (split; [first [reflexivity | discriminate]|]);
      (split; [first [discriminate | now split] | first [discriminate | now split]]).
Qed.

Lemma run_plan_consistent st es :
  session_consistent (Driver.run es (Driver.start st)) /\
  plan_consistent (Driver.run es (Driver.start st)).
Proof.
  apply (driver_run_ind (fun x => session_consistent x /\ plan_consistent x)).
  - split; [apply start_consistent | apply start_plan_consistent].
  - intros e y [Hs Hp]. split; [now apply step_consistent | now apply step_plan_consistent].
Qed.

(** X11. The boolean flags of a driver portal never contradict each other.
    At any point after its mount: a route is not loading and planned at
    once; a summary is shown only for a planned route; a planned route
    comes with a directions result, a non-empty bin list and no request in
    flight; an unplanned portal holds no directions result; and whenever a
    request is in flight the route is loading and not yet planned. *)
Theorem driver_flags_agree (st : LocalStorage.t) (es : list Driver.event) :
  let x := Driver.run es (Driver.start st) in
  let d := Driver.view x in
  Driver.isLoadingRoute d && Driver.routePlanned d = false /\
  (is_Some (Driver.routeSummary d) -> Driver.routePlanned d = true) /\
  (Driver.routePlanned d = true ->
   is_Some (Driver.directionsResponse d) /\ Driver.bins d <> [] /\ Driver.inFlight x = []) /\
  (Driver.routePlanned d = false -> Driver.directionsResponse d = None) /\
  (Driver.inFlight x <> [] ->
   Driver.isLoadingRoute d = true /\ Driver.routePlanned d = false).
Proof.
  intros x d. destruct (run_plan_consistent st es) as [(_ & Hfly & _) (Hload & Hun & Hpl)].
  fold x in Hfly, Hload, Hun, Hpl. fold d in Hfly, Hload, Hun, Hpl.
  assert (Driver.routePlanned d = true -> Driver.isLoadingRoute d = false) as Hnot.
  { intros Hp. destruct (Driver.isLoadingRoute d); [|reflexivity].
    rewrite (Hload eq_refl) in Hp. discriminate Hp. }
  split; [|split; [|split; [|split]]].
  - destruct (Driver.isLoadingRoute d); [|reflexivity]. simpl. now apply Hload.
  - intros [sm Hsm]. destruct (Driver.routePlanned d); [reflexivity|].
    destruct (Hun eq_refl) as [_ Hnone]. congruence.
  - intros Hp. destruct (Hpl Hp) as [Hdir Hbins].
    split; [|split; [exact Hbins|]].
    + destruct (Driver.directionsResponse d); [now eexists | contradiction].
    + rewrite (Hnot Hp) in Hfly. exact Hfly.
  - intros Hp. now apply Hun.
  - intros Hq. destruct (Driver.isLoadingRoute d); [|contradiction].
    split; [reflexivity | now apply Hload].
Qed.

(** X12. A failed answer leaves the portal ready to try again.  When the
    directions service answers an outstanding request with a status other
    than OK, or with no result, the route is neither planned nor loading, no
    summary and no directions result are kept, no request remains in flight,
    the error notification names the status, the bins are untouched and the
    Plan Route button is enabled again. *)
Theorem failed_answer_allows_retry
    (st : LocalStorage.t) (es : list Driver.event)
    (result : option Driver.DirectionsResult) (status : Driver.DirectionsStatus)
    (Hflight : Driver.inFlight (Driver.run es (Driver.start st)) <> [])
    (Hfail : status <> Driver.OK \/ result = None) :
  let x := Driver.run es (Driver.start st) in
  let x' := Driver.step (Driver.RouteAnswer result status) x in
  Driver.routePlanned (Driver.view x') = false /\
  Driver.isLoadingRoute (Driver.view x') = false /\
  Driver.routeSummary (Driver.view x') = None /\
  Driver.directionsResponse (Driver.view x') = None /\
  Driver.inFlight x' = [] /\
  Driver.notification (Driver.view x') =
    Some {| type := error;
            message := "Route planning failed: " +:+ Driver.status_text status |} /\
  Driver.bins (Driver.view x') = Driver.bins (Driver.view x) /\
  Driver.planDisabled (Driver.view x') = false.
Proof.
  intros x x'. destruct (run_plan_consistent st es) as [(_ & Hfly & _) (Hload & Hun & _)].
  fold x in Hflight, Hfly, Hload, Hun.
  destruct (Driver.isLoadingRoute (Driver.view x)) eqn:Hl; [|contradiction].
  destruct Hfly as [Hone Hbins]. specialize (Hload eq_refl).
  destruct (Hun Hload) as [Hdir Hsum].
  assert (Driver.view x' =
          Driver.setNotification
            (Some {| type := error;
                     message := "Route planning failed: " +:+ Driver.status_text status |})
            (Driver.setIsLoadingRoute false (Driver.view x)) /\
          Driver.inFlight x' = []) as [Hview Hq].
  { subst x'. simpl. destruct (Driver.inFlight x) as [|r rest]; [contradiction|].
    simpl in Hone. assert (rest = []) as -> by (destruct rest; [reflexivity|discriminate]).
    simpl. split; [|reflexivity]. unfold Driver.onRoute.
    destruct Hfail as [Hs | ->]; destruct status; try contradiction; try reflexivity;
      now destruct result. }
  rewrite Hview. simpl. repeat (split; [assumption || reflexivity|]).
  unfold Driver.planDisabled. simpl. rewrite Hload. simpl.
  destruct (Driver.bins (Driver.view x)); [contradiction | reflexivity].
Qed.

Lemma failed_answer_allows_retry_witness :
  let x' := Driver.step (Driver.RouteAnswer None Driver.ZERO_RESULTS) Scenario.planning in
  Driver.routePlanned (Driver.view x') = false /\
  Driver.notification (Driver.view x') =
    Some {| type := error; message := "Route planning failed: ZERO_RESULTS" |} /\
  Driver.planDisabled (Driver.view x') = false.
Proof.
  intros x'.
  destruct (failed_answer_allows_retry Scenario.stored_ABC
              [Driver.MapLoad; Driver.ClickPlanRoute] None Driver.ZERO_RESULTS)
    as (Hp & _ & _ & _ & _ & Hn & _ & Hd).
  - vm_compute. discriminate.
  - left. discriminate.
  - split; [exact Hp|]. split; [exact Hn | exact Hd].
Defined.

(** X13. Clearing a route undoes planning it.  In a driver portal whose
    Plan Route button is enabled and whose map is there, at any point after
    the mount: clicking Plan Route, receiving an answer with status OK and
    then clicking Clear Route brings back the portal as it was before the
    first click, bins and flags included, with no request in flight; only
    the notification differs, which says that the route was cleared. *)
Theorem clear_route_undoes_planning
    (st : LocalStorage.t) (es : list Driver.event) (result : Driver.DirectionsResult)
    (Henabled : Driver.planDisabled (Driver.view (Driver.run es (Driver.start st))) = false)
    (Hmap : Driver.map (Driver.view (Driver.run es (Driver.start st))) = true) :
  let x := Driver.run es (Driver.start st) in
  Driver.run [Driver.ClickPlanRoute; Driver.RouteAnswer (Some result) Driver.OK;
              Driver.ClickClearRoute] x =
  {| Driver.view :=
       Driver.setNotification (Some {| type := info; message := "Route cleared." |})
         (Driver.view x);
     Driver.inFlight := [] |}.
Proof.
  intros x. destruct (run_plan_consistent st es) as [(_ & Hfly & _) (_ & Hun & _)].
  fold x in Henabled, Hmap, Hfly, Hun.
  unfold Driver.planDisabled in Henabled.
  apply orb_false_iff in Henabled as [Henabled Hb].
  apply orb_false_iff in Henabled as [Hl Hp].
  rewrite Hl in Hfly. destruct (Hun Hp) as [Hdir Hsum].
  unfold Driver.run. simpl. unfold Driver.planDisabled. rewrite Hl, Hp, Hb. simpl.
  unfold Driver.planRoute. rewrite Hmap, Hb. simpl. rewrite Hfly. simpl.
  destruct (Driver.view x) as [bs mp dr rp lr loc sm nt]. simpl in *. subst.
  unfold Driver.onRoute. simpl.
  now destruct (Driver.routes result).
Qed.

Lemma clear_route_undoes_planning_witness :
  Driver.run [Driver.ClickPlanRoute;
              Driver.RouteAnswer (Some (Scenario.answer Scenario.three_legs)) Driver.OK;
              Driver.ClickClearRoute] Scenario.ready =
  {| Driver.view :=
       Driver.setNotification (Some {| type := info; message := "Route cleared." |})
         (Driver.view Scenario.ready);
     Driver.inFlight := [] |}.
Proof.
  apply (clear_route_undoes_planning Scenario.stored_ABC [Driver.MapLoad]
           (Scenario.answer Scenario.three_legs)); reflexivity.
Defined.

(** ** The summary and the order of the legs *)




(** ** The capacity bar *)



(** ** What the driver finds at mount *)


(** ** Who writes to the store *)

(** X17. The store changes only through the client's submit and clear.  Of
    all the events of the application (tabs opening, navigation, anything
    in a driver portal, map clicks, typing, geocoder answers, timers) only
    two can change what is persisted: a submission that a client portal
    accepts and whose write the browser accepts, after which the store
    holds the bins of that portal, and a click on Clear, after which the
    key is gone. *)
Theorem store_written_only_by_submit_and_clear (w : App.World) (e : App.event) :
  App.localStorage (App.step e w) = App.localStorage w \/
  (exists tab now_id now_createdAt s',
      e = App.OnClient tab (Client.Submit now_id now_createdAt true) /\
      App.tabs (App.step e w) !! tab = Some (App.ClientPortal s') /\
      App.localStorage (App.step e w) = Some (LocalStorage.Json (Client.bins s'))) \/
  (exists tab, e = App.OnClient tab Client.Clear /\ App.localStorage (App.step e w) = None).
Proof.
  destruct e as [p | t p | t ce | t de]; simpl; try (now left).
  - destruct (App.tabs w !! t) as [[|s|y]|] eqn:Ht; try (now left).
    pose proof (lookup_lt_Some _ _ _ Ht) as Hlt.
    destruct ce as [| | | | |pos g|ans|now_id now_createdAt accepts|]; simpl; try (now left).
    + destruct (Client.amountDisabled s); now left.
    + destruct (Client.submitDisabled s); [now left|].
      pose proof (handleSubmit_bins now_id now_createdAt accepts
                    (App.localStorage w) s) as H.
      destruct (Client.handleSubmit _ _ _ _ _) as [s' st']. simpl.
      destruct H as [[_ ->] | (b & _ & _ & _ & _ & _ & ->)]; [now left|].
      destruct accepts; [|now left].
      right. left. exists t, now_id, now_createdAt, s'.
      split; [reflexivity|]. split; [now apply list_lookup_insert_eq | reflexivity].
    + destruct (Client.clearDisabled s); [now left|].
      right. right. now exists t.
  - destruct (App.tabs w !! t) as [[|s|y]|]; now left.
Qed.


Lemma driver_flags_agree_witness :
  Driver.routePlanned (Driver.view Scenario.planned) = true /\
  is_Some (Driver.directionsResponse (Driver.view Scenario.planned)) /\
  Driver.bins (Driver.view Scenario.planned) <> [] /\
  Driver.inFlight Scenario.planned = [] /\
  Driver.isLoadingRoute (Driver.view Scenario.planning) = true /\
  Driver.routePlanned (Driver.view Scenario.planning) = false.
Proof.
  destruct (driver_flags_agree Scenario.stored_ABC
              [Driver.MapLoad; Driver.ClickPlanRoute;
               Driver.RouteAnswer (Some (Scenario.answer Scenario.three_legs)) Driver.OK])
    as (_ & Hsum & Hplanned & _).
  assert (Driver.routePlanned (Driver.view Scenario.planned) = true) as Hp.
  { apply Hsum. vm_compute. now eexists. }
  destruct (Hplanned Hp) as (Hdir & Hbins & Hq).
  destruct (driver_flags_agree Scenario.stored_ABC [Driver.MapLoad; Driver.ClickPlanRoute])
    as (_ & _ & _ & _ & Hfly).
  destruct Hfly as [Hl Hu]; [vm_compute; discriminate|].
  split; [exact Hp|]. split; [exact Hdir|]. split; [exact Hbins|].
  split; [exact Hq|]. split; [exact Hl | exact Hu].
Defined.
